(** * Authenticated configuration proxy (Express backend of azure-appconfig-demo)

    A shallow embedding of the backend's route handlers: the login / session
    contract, the [authenticateToken] gate, the three configuration routes and
    the catch-all error middleware; and, further down, of the React client
    that talks to them.

    The program talks to four collaborators that are not part of it: the
    [jsonwebtoken] and [bcrypt] packages, the Key Vault secret client and the
    App Configuration client.  They are taken as parameters (records of
    functions); every call a handler makes to one of the two Azure stores is
    recorded in a trace, so that "no call was made" and "this call came first"
    are statements about a list.  [console.error] logging is not recorded. *)

From Stdlib Require Import String Ascii List ZArith Lia Bool.
From Stdlib Require Import DecimalString.
Import ListNotations.

Local Open Scope Z_scope.
Local Open Scope string_scope.
Local Open Scope list_scope.

Notation "a +++ b" := (String.append a b) (at level 60, right associativity).

(** ** JavaScript values the handlers touch *)

Module Js.

(** The double-quote character, for the literals of the HTML page. *)
Definition dq : string := String "034"%char EmptyString.

(** [!!s] for a string: only the empty string is falsy. *)
Definition truthy (s : string) : bool :=
  match s with
  | EmptyString => false
  | String _ _ => true
  end.

(** [!!v] for a value that is a string or [undefined]. *)
Definition truthy_opt (v : option string) : bool :=
  match v with
  | None => false
  | Some s => truthy s
  end.

(** [s.split(sep)] for a one-character separator: the pieces between the
    occurrences of [sep], empty pieces included; never the empty array. *)
Fixpoint split (sep : ascii) (s : string) : list string :=
  match s with
  | EmptyString => [EmptyString]
  | String c r =>
      if Ascii.eqb c sep then EmptyString :: split sep r
      else match split sep r with
           | [] => [String c EmptyString]
           | h :: t => String c h :: t
           end
  end.

(** [a === b] on strings. *)
Definition strict_eq (a b : string) : bool := String.eqb a b.

End Js.

Notation "a === b" := (Js.strict_eq a b) (at level 70, no associativity).

(** ** JSON bodies *)

#[warnings="-register-all"]
Inductive json : Type :=
| JBool (b : bool)
| JNum (n : Z)
| JStr (s : string)
| JDate (t : Z)
| JObj (fields : list (string * json)).

Fixpoint assoc (k : string) (fs : list (string * json)) : option json :=
  match fs with
  | [] => None
  | (k', v) :: r => if String.eqb k k' then Some v else assoc k r
  end.

(** The member [k] of an object, [None] when the value has no such member. *)
Definition field (k : string) (j : json) : option json :=
  match j with
  | JObj fs => assoc k fs
  | _ => None
  end.

(** A conditional spread [...(c && { k: v })]. *)
Definition spread_if (c : bool) (fs : list (string * json)) : list (string * json) :=
  if c then fs else [].

(** ** Errors, results and the trace of upstream calls *)

Record Exn : Type := mkExn { message : string }.

Definition Result (A : Type) : Type := (Exn + A)%type.

(** What [secretClient.getSecret] resolves to. *)
Record KeyVaultSecret : Type := mkSecret { secret_value : string }.

(** A settings-store client remembers the connection string it was built from. *)
Record Client : Type := mkClient { connectionString : string }.

Module Setting.
Record t : Type := mk { key : string; value : string; lastModified : Z }.
End Setting.

Module User.
Record t : Type := mk { id : Z; username : string; password : string; name : string }.
End User.

(** The two external stores. *)
Record Azure : Type := mkAzure {
  getSecret : string -> Result KeyVaultSecret;
  AppConfigurationClient : string -> Result Client;
  getConfigurationSetting : Client -> string -> Result Setting.t
}.

(** One entry per call that leaves the process. *)
Inductive Event : Type :=
| EvGetSecret (name : string)
| EvNewClient (connection : string)
| EvGetSetting (c : Client) (key : string).

(** An awaited computation: its outcome and the upstream calls it made. *)
Definition Async (A : Type) : Type := (Result A * list Event)%type.

Definition ret {A} (a : A) : Async A := (inr a, []).
Definition throw {A} (e : Exn) : Async A := (inl e, []).

Definition bind {A B} (m : Async A) (f : A -> Async B) : Async B :=
  match m with
  | (inl e, t) => (inl e, t)
  | (inr a, t) => let (r, t') := f a in (r, t ++ t')
  end.

(** [try { m } catch (error) { h error }] *)
Definition try_catch {A} (m : Async A) (h : Exn -> Async A) : Async A :=
  match m with
  | (inl e, t) => let (r, t') := h e in (r, t ++ t')
  | (inr a, t) => (inr a, t)
  end.

(** An outcome computed without leaving the process. *)
Definition lift {A} (r : Result A) : Async A := (r, []).

Notation "x <- m ;; k" := (bind m (fun x => k))
  (at level 61, m at next level, right associativity).

Definition outcome {A} (m : Async A) : Result A := fst m.
Definition trace {A} (m : Async A) : list Event := snd m.

(** ** Requests and responses *)

(** The decoded token payload: what [jwt.verify] hands to its callback. *)
Record Claims : Type := mkClaims {
  claim_id : Z; claim_username : string; claim_name : string;
  iat : Z; exp : Z
}.

(** The object [login] signs. *)
Record Payload : Type := mkPayload {
  payload_id : Z; payload_username : string; payload_name : string
}.

Record Request : Type := mkRequest {
  authorization : option string;      (* req.headers['authorization'] *)
  body_username : option string;      (* req.body.username *)
  body_password : option string;      (* req.body.password *)
  params_key : string;                (* req.params.key *)
  user : option Claims                (* req.user *)
}.

Definition set_user (req : Request) (u : Claims) : Request :=
  mkRequest (authorization req) (body_username req) (body_password req)
            (params_key req) (Some u).

Inductive Body : Type :=
| BJson (j : json)
| BHtml (html : string).

Record Response : Type := mkResponse { status : Z; body : Body }.

(** [res.status(code).json(j)], [res.json(j)] and [res.send(html)]. *)
Definition res_status_json (code : Z) (j : json) : Response := mkResponse code (BJson j).
Definition res_json (j : json) : Response := mkResponse 200 (BJson j).
Definition res_send (html : string) : Response := mkResponse 200 (BHtml html).

(** The member [k] of a JSON response body. *)
Definition body_field (k : string) (r : Response) : option json :=
  match body r with
  | BJson j => field k j
  | BHtml _ => None
  end.

(** ** The packages and the process environment *)

(** [jsonwebtoken]: [sign payload secret { expiresIn } ] at a clock reading and
    [verify token secret] at a clock reading.  The clock is the package's own:
    whole seconds since the epoch. *)
Record Jwt : Type := mkJwt {
  sign : Payload -> string -> string -> Z -> string;
  verify : string -> string -> Z -> Result Claims
}.

(** [bcrypt.compare data hash]; the promise may reject. *)
Record Bcrypt : Type := mkBcrypt {
  compare : string -> string -> Result bool
}.

Record ProcessEnv : Type := mkEnv {
  env_JWT_SECRET : option string;
  env_NODE_ENV : option string
}.

(** The span an [expiresIn] string such as ['24h'] stands for, in seconds:
    decimal digits followed by one unit letter. *)
Module Timespan.

Definition digit (c : ascii) : option Z :=
  let n := Z.of_nat (nat_of_ascii c) in
  if ((48 <=? n)%Z && (n <=? 57)%Z)%bool then Some (n - 48)%Z else None.

Definition unit_seconds (u : string) : option Z :=
  if String.eqb u "s" then Some 1
  else if String.eqb u "m" then Some 60
  else if String.eqb u "h" then Some 3600
  else if String.eqb u "d" then Some 86400
  else None.

Fixpoint parse (acc : option Z) (s : string) : option Z :=
  match s with
  | EmptyString => None
  | String c r =>
      match digit c with
      | Some d => parse (Some (10 * match acc with Some a => a | None => 0 end + d)) r
      | None =>
          match acc, unit_seconds s with
          | Some a, Some u => Some (a * u)
          | _, _ => None
          end
      end
  end.

Definition seconds (s : string) : option Z := parse None s.

End Timespan.

(** ** The HTML page of the legacy route *)

Import Js.

Definition page_head : string :=
  "
            <!DOCTYPE html>
            <html>
            <head>
                <title>Azure App Config + Key Vault Demo</title>
                <style>
                    .banner {
                        background-color: ".

Definition page_style_tail : string :=
  ";
                        color: white;
                        padding: 20px;
                        text-align: center;
                        font-size: 24px;
                        margin-bottom: 20px;
                    }
                    .api-info {
                        background-color: #f0f0f0;
                        padding: 15px;
                        margin: 20px 0;
                        border-radius: 5px;
                    }
                </style>
            </head>
            <body>
                <div class=" +++ dq +++ "banner" +++ dq +++ ">".

Definition page_body : string :=
  "</div>
                <h1>Welcome to our LTI Mindtree Store!</h1>
                <p>New Checkout Feature: ".

Definition ENABLED : string :=
  "ðŸŸ¢ Enabled".

Definition DISABLED : string :=
  "ðŸ”´ Disabled".

Definition page_tail : string :=
  "</p>
                <p><small>Configuration securely stored in Key Vault</small></p>
                
                <div class=" +++ dq +++ "api-info" +++ dq +++ ">
                    <h3>ðŸ”— API Endpoints Available:</h3>
                    <ul>
                        <li><strong>POST</strong> /api/auth/login - User authentication</li>
                        <li><strong>GET</strong> /api/auth/profile - Get user profile (requires auth)</li>
                        <li><strong>GET</strong> /api/config - Get all configuration settings (requires auth)</li>
                        <li><strong>GET</strong> /api/config/:key - Get specific setting (requires auth)</li>
                        <li><strong>GET</strong> /api/health - Health check</li>
                    </ul>
                    <p><strong>Demo Credentials:</strong> demo@ltimindtree.com / password123</p>
                    <p><strong>Frontend URL:</strong> <a href=" +++ dq +++ "http://localhost:3000" +++ dq +++ ">http://localhost:3000</a></p>
                </div>
            </body>
            </html>
        ".

Definition legacy_page (promoColor promoText : string) (newCheckout : bool) : string :=
  page_head +++ promoColor +++ page_style_tail +++ promoText +++ page_body
    +++ (if newCheckout then ENABLED else DISABLED) +++ page_tail.

Definition legacy_error_page (msg : string) : string :=
  "<h1>Error loading settings</h1><p>" +++ msg +++ "</p>".

(** ** The server *)

(** Mock user database. *)
Definition users : list User.t :=
  [ User.mk 1 "demo@ltimindtree.com"
      "$2b$10$rOzWbkQ9p5Fy8.QqZ6m7CeHPFZGVN1wR8PjHgF5nC2QxGkY7mKfO2"
      "Demo User" ].

Definition SECRET_NAME : string := "AppConfigConnectionString".

Inductive Route : Type :=
| PostLogin
| GetProfile
| GetConfig
| GetConfigKey
| GetRoot.

Section Server.

Variable jwt : Jwt.
Variable bcrypt : Bcrypt.
Variable env : ProcessEnv.
Variable azure : Azure.

(** [process.env.JWT_SECRET || 'your-secret-key'] *)
Definition JWT_SECRET : string :=
  match env_JWT_SECRET env with
  | Some s => if truthy s then s else "your-secret-key"
  | None => "your-secret-key"
  end.

(** The three upstream calls, each leaving its mark in the trace. *)
Definition await_getSecret (name : string) : Async KeyVaultSecret :=
  (getSecret azure name, [EvGetSecret name]).

Definition new_AppConfigurationClient (connection : string) : Async Client :=
  (AppConfigurationClient azure connection, [EvNewClient connection]).

Definition await_getConfigurationSetting (client : Client) (key : string)
  : Async Setting.t :=
  (getConfigurationSetting azure client key, [EvGetSetting client key]).

Definition getAppConfigClient : Async Client :=
  try_catch
    (connection <- await_getSecret SECRET_NAME ;;
     new_AppConfigurationClient (secret_value connection))
    (fun error => throw error).

(** The token of a request: [authHeader && authHeader.split(' ')[1]]. *)
Definition bearer_token (req : Request) : option string :=
  match authorization req with
  | None => None
  | Some authHeader =>
      if truthy authHeader then nth_error (split " " authHeader) 1
      else Some authHeader
  end.

Definition authenticateToken (clock : Z) (req : Request)
           (next : Request -> Async Response) : Async Response :=
  match bearer_token req with
  | Some token =>
      if negb (truthy token) then
        ret (res_status_json 401 (JObj [("error", JStr "Access token required")]))
      else
        match verify jwt token JWT_SECRET clock with
        | inl err =>
            ret (res_status_json 403 (JObj [("error", JStr "Invalid or expired token")]))
        | inr u => next (set_user req u)
        end
  | None =>
      ret (res_status_json 401 (JObj [("error", JStr "Access token required")]))
  end.

Definition user_json (u : User.t) : json :=
  JObj [("id", JNum (User.id u)); ("username", JStr (User.username u));
        ("name", JStr (User.name u))].

Definition claims_json (c : Claims) : json :=
  JObj [("id", JNum (claim_id c)); ("username", JStr (claim_username c));
        ("name", JStr (claim_name c)); ("iat", JNum (iat c)); ("exp", JNum (exp c))].

Definition invalid_credentials : Response :=
  res_status_json 401 (JObj [("error", JStr "Invalid credentials")]).

(** POST /api/auth/login *)
Definition login (clock : Z) (req : Request) : Async Response :=
  try_catch
    (match body_username req, body_password req with
     | Some username, Some password =>
         if negb (truthy username) || negb (truthy password) then
           ret (res_status_json 400 (JObj [("error", JStr "Username and password required")]))
         else
           match find (fun u => User.username u === username) users with
           | None => ret invalid_credentials
           | Some u =>
               isValidPassword <- lift (compare bcrypt password (User.password u)) ;;
               if negb isValidPassword then ret invalid_credentials
               else
                 let token :=
                   sign jwt (mkPayload (User.id u) (User.username u) (User.name u))
                        JWT_SECRET "24h" clock in
                 ret (res_json (JObj [("success", JBool true);
                                      ("token", JStr token);
                                      ("user", user_json u)]))
           end
     | _, _ =>
         ret (res_status_json 400 (JObj [("error", JStr "Username and password required")]))
     end)
    (fun error =>
       ret (res_status_json 500 (JObj [("error", JStr "Internal server error")]))).

(** GET /api/auth/profile, behind [authenticateToken]. *)
Definition profile (req : Request) : Async Response :=
  ret (res_json (JObj (("success", JBool true) ::
                       match user req with
                       | Some c => [("user", claims_json c)]
                       | None => []
                       end))).

Definition config_json (promoText promoColor newCheckoutEnabled : Setting.t) : json :=
  JObj [("success", JBool true);
        ("config",
         JObj [("promoBanner",
                JObj [("text", JStr (Setting.value promoText));
                      ("color", JStr (Setting.value promoColor))]);
               ("features",
                JObj [("newCheckout",
                       JBool (Setting.value newCheckoutEnabled === "true"))])])].

Definition failure_json (what : string) (error : Exn) : json :=
  JObj [("success", JBool false); ("error", JStr what);
        ("details", JStr (message error))].

(** GET /api/config, behind [authenticateToken]. *)
Definition config (req : Request) : Async Response :=
  try_catch
    (client <- getAppConfigClient ;;
     promoText <- await_getConfigurationSetting client "PromoBanner/Text" ;;
     promoColor <- await_getConfigurationSetting client "PromoBanner/Color" ;;
     newCheckoutEnabled <- await_getConfigurationSetting client "Feature/NewCheckout" ;;
     ret (res_json (config_json promoText promoColor newCheckoutEnabled)))
    (fun error =>
       ret (res_status_json 500 (failure_json "Failed to load configuration" error))).

(** GET /api/config/:key, behind [authenticateToken]. *)
Definition configKey (req : Request) : Async Response :=
  try_catch
    (client <- getAppConfigClient ;;
     let key := params_key req in
     setting <- await_getConfigurationSetting client key ;;
     ret (res_json (JObj [("success", JBool true);
                          ("key", JStr (Setting.key setting));
                          ("value", JStr (Setting.value setting));
                          ("lastModified", JDate (Setting.lastModified setting))])))
    (fun error =>
       ret (res_status_json 500
              (failure_json "Failed to load configuration setting" error))).

(** GET /, the legacy web interface: no middleware in front of it. *)
Definition legacy (req : Request) : Async Response :=
  try_catch
    (client <- getAppConfigClient ;;
     promoText <- await_getConfigurationSetting client "PromoBanner/Text" ;;
     promoColor <- await_getConfigurationSetting client "PromoBanner/Color" ;;
     newCheckoutEnabled <- await_getConfigurationSetting client "Feature/NewCheckout" ;;
     ret (res_send (legacy_page (Setting.value promoColor) (Setting.value promoText)
                                (Setting.value newCheckoutEnabled === "true"))))
    (fun error => ret (res_send (legacy_error_page (message error)))).

(** The error handling middleware registered after the routes. *)
Definition errorMiddleware (error : Exn) : Response :=
  res_status_json 500
    (JObj ([("success", JBool false); ("error", JStr "Internal server error")]
           ++ spread_if (match env_NODE_ENV env with
                         | Some v => v === "development"
                         | None => false
                         end)
                        [("details", JStr (message error))])).

(** The routing table. *)
Definition app (route : Route) (clock : Z) (req : Request) : Async Response :=
  match route with
  | PostLogin => login clock req
  | GetProfile => authenticateToken clock req profile
  | GetConfig => authenticateToken clock req config
  | GetConfigKey => authenticateToken clock req configKey
  | GetRoot => legacy req
  end.

End Server.

(** ** What the handlers rely on from [jsonwebtoken] *)

(** A compact token: not empty and free of spaces, so that it survives the
    trip through an [Authorization: Bearer <token>] header. *)
Fixpoint no_space (s : string) : bool :=
  match s with
  | EmptyString => true
  | String c r => negb (Ascii.eqb c " ") && no_space r
  end.

Definition compact (token : string) : bool := truthy token && no_space token.

Definition claims_of (p : Payload) (issued expires : Z) : Claims :=
  mkClaims (payload_id p) (payload_username p) (payload_name p) issued expires.

(** The package's contract for a token it signed itself: until the expiry
    instant the same key gets the payload back, stamped with [iat] and [exp];
    from the expiry instant on the token is refused. *)
Record JwtLaws (jwt : Jwt) : Prop := mkJwtLaws {
  verify_fresh : forall p k d span T t,
      Timespan.seconds d = Some span -> t < T + span ->
      verify jwt (sign jwt p k d T) k t = inr (claims_of p T (T + span));
  verify_expired : forall p k d span T t,
      Timespan.seconds d = Some span -> T + span <= t ->
      exists err, verify jwt (sign jwt p k d T) k t = inl err;
  sign_compact : forall p k d T, compact (sign jwt p k d T) = true
}.

(** ** Test doubles

    Stand-ins for the four collaborators, small enough to run: a token format
    that spells its fields out in binary digits, a password check that knows
    the one fixture hash, and stores holding the values of the lab sheet. *)

Module Fake.

(** Self-delimiting binary codes. *)
Fixpoint enc_pos (p : positive) : list bool :=
  match p with
  | xH => [false]
  | xO q => true :: false :: enc_pos q
  | xI q => true :: true :: enc_pos q
  end.

Fixpoint dec_pos (bs : list bool) : option (positive * list bool) :=
  match bs with
  | false :: r => Some (xH, r)
  | true :: b :: r =>
      match dec_pos r with
      | Some (q, r') => Some ((if b then xI q else xO q), r')
      | None => None
      end
  | _ => None
  end.

Definition enc_Z (z : Z) : list bool :=
  match z with
  | Z0 => [false]
  | Zpos p => true :: false :: enc_pos p
  | Zneg p => true :: true :: enc_pos p
  end.

Definition dec_Z (bs : list bool) : option (Z * list bool) :=
  match bs with
  | false :: r => Some (Z0, r)
  | true :: b :: r =>
      match dec_pos r with
      | Some (p, r') => Some ((if b then Zneg p else Zpos p), r')
      | None => None
      end
  | _ => None
  end.

Fixpoint enc_string (s : string) : list bool :=
  match s with
  | EmptyString => [false]
  | String (Ascii b0 b1 b2 b3 b4 b5 b6 b7) r =>
      true :: b0 :: b1 :: b2 :: b3 :: b4 :: b5 :: b6 :: b7 :: enc_string r
  end.

Fixpoint dec_string (bs : list bool) : option (string * list bool) :=
  match bs with
  | false :: r => Some (EmptyString, r)
  | true :: b0 :: b1 :: b2 :: b3 :: b4 :: b5 :: b6 :: b7 :: r =>
      match dec_string r with
      | Some (s, r') => Some (String (Ascii b0 b1 b2 b3 b4 b5 b6 b7) s, r')
      | None => None
      end
  | _ => None
  end.

Fixpoint digits (bs : list bool) : string :=
  match bs with
  | [] => EmptyString
  | b :: r => String (if b then "1"%char else "0"%char) (digits r)
  end.

Fixpoint undigits (s : string) : option (list bool) :=
  match s with
  | EmptyString => Some []
  | String c r =>
      match undigits r with
      | Some bs =>
          if Ascii.eqb c "1" then Some (true :: bs)
          else if Ascii.eqb c "0" then Some (false :: bs)
          else None
      | None => None
      end
  end.

(** A token carries the key it was made with, the payload and the two
    instants. *)
Definition jwt_sign (p : Payload) (k d : string) (T : Z) : string :=
  let span := match Timespan.seconds d with Some n => n | None => 0 end in
  digits (enc_string k ++ enc_Z (payload_id p) ++ enc_string (payload_username p)
            ++ enc_string (payload_name p) ++ enc_Z T ++ enc_Z (T + span)).

Definition jwt_decode (token : string) : option (string * Claims) :=
  match undigits token with
  | Some b0 =>
      match dec_string b0 with
      | Some (k, b1) =>
      match dec_Z b1 with
      | Some (i, b2) =>
      match dec_string b2 with
      | Some (u, b3) =>
      match dec_string b3 with
      | Some (n, b4) =>
      match dec_Z b4 with
      | Some (issued, b5) =>
      match dec_Z b5 with
      | Some (expires, []) => Some (k, mkClaims i u n issued expires)
      | _ => None
      end | None => None end | None => None end | None => None end
      | None => None end | None => None end
  | None => None
  end.

Definition jwt_verify (token k : string) (clock : Z) : Result Claims :=
  match jwt_decode token with
  | None => inl (mkExn "jwt malformed")
  | Some (k', c) =>
      if negb (String.eqb k' k) then inl (mkExn "invalid signature")
      else if (exp c <=? clock)%Z then inl (mkExn "jwt expired")
      else inr c
  end.

Definition jwt : Jwt := mkJwt jwt_sign jwt_verify.

(** A password check that knows one pair: 'password123' and the string it
    hashes to under the salt of the fixture, [$2b$10$rOzWbkQ9p5Fy8.QqZ6m7Ce].
    That string is not the one the fixture stores, so this check, like the
    package, refuses 'password123' for the fixture user. *)
Definition bcrypt : Bcrypt :=
  mkBcrypt (fun data hash =>
    inr ((data === "password123")
         && (hash === "$2b$10$rOzWbkQ9p5Fy8.QqZ6m7Ceg2LVtNfEEV.CtSqtCk2dKmkhKUmFZ6."))).

(** A password check that says yes to everything.  The package does no such
    thing; this one stands in where a proof has to get past the check, to the
    code that signs the token. *)
Definition bcrypt_yes : Bcrypt :=
  mkBcrypt (fun _ _ => inr true).

(** A password check whose promise always rejects. *)
Definition bcrypt_broken : Bcrypt :=
  mkBcrypt (fun _ _ => inl (mkExn "data and hash arguments required")).

Definition env : ProcessEnv := mkEnv None None.
Definition env_production : ProcessEnv := mkEnv None (Some "production").

Definition CONNECTION : string :=
  "Endpoint=https://demo.azconfig.io;Id=demo;Secret=c2VjcmV0".

(** The stores of the lab sheet: one secret, three settings. *)
Definition settings (valueOfNewCheckout : string) (key : string) : Result Setting.t :=
  if key === "PromoBanner/Text" then inr (Setting.mk key "Summer Sale - 50% Off!" 1700000000000)
  else if key === "PromoBanner/Color" then inr (Setting.mk key "blue" 1700000000001)
  else if key === "Feature/NewCheckout" then inr (Setting.mk key valueOfNewCheckout 1700000000002)
  else inl (mkExn "Service request failed. Status: 404").

Definition azure_with (valueOfNewCheckout : string) : Azure :=
  mkAzure
    (fun name => if name === SECRET_NAME then inr (mkSecret CONNECTION)
                 else inl (mkExn "SecretNotFound"))
    (fun connection => inr (mkClient connection))
    (fun _ key => settings valueOfNewCheckout key).

Definition azure : Azure := azure_with "true".

(** A vault that cannot be reached. *)
Definition azure_down : Azure :=
  mkAzure (fun _ => inl (mkExn "getaddrinfo ENOTFOUND honeywellvault.vault.azure.net"))
          (fun connection => inr (mkClient connection))
          (fun _ key => settings "true" key).

(** A settings store that lost its colour entry. *)
Definition azure_no_color : Azure :=
  mkAzure (fun name => if name === SECRET_NAME then inr (mkSecret CONNECTION)
                       else inl (mkExn "SecretNotFound"))
          (fun connection => inr (mkClient connection))
          (fun _ key => if key === "PromoBanner/Color"
                        then inl (mkExn "Service request failed. Status: 404")
                        else settings "true" key).

Definition empty_request : Request := mkRequest None None None "" None.

Definition with_header (h : string) : Request := mkRequest (Some h) None None "" None.

Definition login_request (u p : string) : Request :=
  mkRequest None (Some u) (Some p) "" None.

Definition key_request (h key : string) : Request :=
  mkRequest (Some h) None None key None.

(** The token the demo user gets at clock reading [T]. *)
Definition demo_token (T : Z) : string :=
  jwt_sign (mkPayload 1 "demo@ltimindtree.com" "Demo User") "your-secret-key" "24h" T.

End Fake.


(** The session a request carries: the claims of its token when the header
    holds one that verifies, nothing otherwise. *)
Definition session (jwt : Jwt) (env : ProcessEnv) (clock : Z) (req : Request)
  : option Claims :=
  match bearer_token req with
  | Some token =>
      if truthy token then
        match verify jwt token (JWT_SECRET env) clock with
        | inr c => Some c
        | inl _ => None
        end
      else None
  | None => None
  end.

(** The routes registered behind [authenticateToken]. *)
Definition protected (route : Route) : bool :=
  match route with
  | GetProfile | GetConfig | GetConfigKey => true
  | PostLogin | GetRoot => false
  end.

(** The routes that read the settings store. *)
Definition reads_settings (route : Route) : bool :=
  match route with
  | GetConfig | GetConfigKey | GetRoot => true
  | PostLogin | GetProfile => false
  end.

(** A run of the server: requests answered one after the other, each at its
    own clock reading and against the stores as they are at that moment. *)
Fixpoint serve (jwt : Jwt) (bcrypt : Bcrypt) (env : ProcessEnv)
         (rs : list (Azure * Route * Z * Request)) : list (Async Response) :=
  match rs with
  | [] => []
  | (azure, route, clock, req) :: rest =>
      app jwt bcrypt env azure route clock req :: serve jwt bcrypt env rest
  end.

(** Does this request get past the gate of its route and on to the stores? *)
Definition reaches_stores (jwt : Jwt) (env : ProcessEnv)
           (r : Azure * Route * Z * Request) : bool :=
  let '(_, route, clock, req) := r in
  reads_settings route &&
  (negb (protected route) ||
   match session jwt env clock req with Some _ => true | None => false end).

Definition is_secret_lookup (e : Event) : bool :=
  match e with
  | EvGetSecret name => name === SECRET_NAME
  | _ => false
  end.

(** An error one of the stores answered with. *)
Definition upstream_error (azure : Azure) (error : Exn) : Prop :=
  getSecret azure SECRET_NAME = inl error
  \/ (exists connection, AppConfigurationClient azure connection = inl error)
  \/ (exists client key, getConfigurationSetting azure client key = inl error).

(** The [config.features.newCheckout] member of a response. *)
Definition newCheckout_of (r : Response) : option json :=
  match body_field "config" r with
  | Some c => match field "features" c with
              | Some f => field "newCheckout" f
              | None => None
              end
  | None => None
  end.

Definition access_token_required : Response :=
  res_status_json 401 (JObj [("error", JStr "Access token required")]).

Definition invalid_or_expired : Response :=
  res_status_json 403 (JObj [("error", JStr "Invalid or expired token")]).

Definition CONFIG_KEYS : list string :=
  ["PromoBanner/Text"; "PromoBanner/Color"; "Feature/NewCheckout"].

(** ** Vocabulary of the properties *)

Definition DAY : Z := 24 * 60 * 60.

Definition payload_of (u : User.t) : Payload :=
  mkPayload (User.id u) (User.username u) (User.name u).

Definition demo_user : User.t :=
  User.mk 1 "demo@ltimindtree.com"
          "$2b$10$rOzWbkQ9p5Fy8.QqZ6m7CeHPFZGVN1wR8PjHgF5nC2QxGkY7mKfO2" "Demo User".

Definition is_setting_event (e : Event) : bool :=
  match e with
  | EvGetSetting _ _ => true
  | _ => false
  end.

(** The shape of a trace that starts from scratch: the secret, then the
    client made from its value, then settings lookups only. *)
Definition from_scratch (azure : Azure) (t : list Event) : Prop :=
  exists rest,
    t = EvGetSecret SECRET_NAME :: rest
    /\ match getSecret azure SECRET_NAME with
       | inl _ => rest = []
       | inr s => exists lookups,
           rest = EvNewClient (secret_value s) :: lookups
           /\ forallb is_setting_event lookups = true
       end.

Definition secret_lookups (t : list Event) : nat :=
  length (filter is_secret_lookup t).

(** Every upstream call of a run, in order. *)
Definition run_trace (run : list (Async Response)) : list Event :=
  concat (map trace run).

Definition in_development (env : ProcessEnv) : bool :=
  match env_NODE_ENV env with
  | Some v => v === "development"
  | None => false
  end.

Definition legacy_trace (s : KeyVaultSecret) (client : Client) : list Event :=
  [EvGetSecret SECRET_NAME; EvNewClient (secret_value s);
   EvGetSetting client "PromoBanner/Text";
   EvGetSetting client "PromoBanner/Color";
   EvGetSetting client "Feature/NewCheckout"].

(** The keys the configuration handlers ask for, up to and including the
    first one the store refuses. *)
Fixpoint until_failure (azure : Azure) (client : Client) (keys : list string)
  : list string :=
  match keys with
  | [] => []
  | k :: rest =>
      match getConfigurationSetting azure client k with
      | inl _ => [k]
      | inr _ => k :: until_failure azure client rest
      end
  end.

(** * The React client (frontend/src/App.js)

    The client keeps its session in [localStorage], talks to the server
    through axios with two interceptors, and holds the rest of its state in
    component state.  The network is a parameter: a function from a request
    to either a reply or a failure to get one.  Component state is a record,
    a state setter is a record update, and an [async] function is a function
    from the state before to the state after its promise settles. *)

(** ** [window.localStorage] *)

Module Storage.

Definition t : Type := list (string * string).

Fixpoint getItem (k : string) (s : t) : option string :=
  match s with
  | [] => None
  | (k', v) :: r => if String.eqb k' k then Some v else getItem k r
  end.

Fixpoint removeItem (k : string) (s : t) : t :=
  match s with
  | [] => []
  | (k', v) :: r =>
      if String.eqb k' k then removeItem k r else (k', v) :: removeItem k r
  end.

Definition setItem (k v : string) (s : t) : t := (k, v) :: removeItem k s.

End Storage.

Record Browser : Type := mkBrowser {
  localStorage : Storage.t;
  location_href : string            (* window.location.href *)
}.

(** ** A plain object used as a map: [{...prev, [key]: value}] *)

Module Obj.

Definition t : Type := list (string * option json).

Fixpoint get (k : string) (o : t) : option (option json) :=
  match o with
  | [] => None
  | (k', v) :: r => if String.eqb k' k then Some v else get k r
  end.

(** An own key keeps its place, a new key goes last. *)
Fixpoint set (k : string) (v : option json) (o : t) : t :=
  match o with
  | [] => [(k, v)]
  | (k', v') :: r =>
      if String.eqb k' k then (k, v) :: r else (k', v') :: set k v r
  end.

End Obj.

(** ** The network *)

Inductive Method : Type := GET | POST.

(** What the login form posts. *)
Record Credentials : Type := mkCredentials {
  cred_username : string;
  cred_password : string
}.

(** What comes back for a request: no answer at all, or a status and a body. *)
Inductive Wire : Type :=
| NetworkError (e : Exn)
| Reply (code : Z) (data : Body).

(** method, URL, Authorization header, posted body *)
Definition Transport : Type :=
  Method -> string -> option string -> option Credentials -> Wire.

(** How an axios promise settles: with [response.data], or with an error
    whose [response] is there only when the server answered. *)
Inductive Settled : Type :=
| Resolved (data : Body)
| Rejected (response : option (Z * Body)).

(** ** Component state and what the components render *)

Record AuthState : Type := mkAuthState {
  auth_user : option json;          (* null or undefined is [None] *)
  auth_loading : bool
}.

Record LoginResult : Type := mkLoginResult {
  result_success : bool;
  result_error : option json
}.

Record LoginState : Type := mkLoginState {
  login_credentials : Credentials;
  login_error : option json;
  login_loading : bool
}.

Record DashboardState : Type := mkDashboardState {
  dash_config : option json;
  dash_loading : bool;
  dash_error : json
}.

Record DetailState : Type := mkDetailState {
  detail_settings : Obj.t;
  detail_loading : bool;
  detail_selected : string
}.

Inductive RouteView : Type :=
| ShowLoading
| ShowChildren
| NavigateTo (path : string).

(** The dashboard once it has something to show: the banner when there is
    one (its colour and text), the two lines of the banner card, and the
    feature flag. *)
Record Board : Type := mkBoard {
  board_banner : option (option json * option json);
  board_text : option json;
  board_color : option json;
  board_newCheckout : bool
}.

Inductive DashboardView : Type :=
| DashLoading
| DashError (error : json)
| DashBoard (b : Board).

Definition initial_auth : AuthState := mkAuthState None true.
Definition initial_dashboard : DashboardState := mkDashboardState None true (JStr "").
Definition initial_detail : DetailState := mkDetailState [] true "".

Section Frontend.

(** [Date.prototype.toISOString]: a date in a body reaches the client as this
    string. *)
Variable toISOString : Z -> string.
Variable JSON_stringify : json -> string.
Variable JSON_parse : string -> Result json.
Variable REACT_APP_API_URL : option string.
Variable transport : Transport.

(** [!!v] *)
Definition js_truthy (v : option json) : bool :=
  match v with
  | None => false
  | Some (JBool b) => b
  | Some (JNum n) => negb (n =? 0)%Z
  | Some (JStr s) => truthy s
  | Some (JDate t) => truthy (toISOString t)
  | Some (JObj _) => true
  end.

(** [String(v)], which is also what [setItem] does to its value. *)
Definition js_String (v : option json) : string :=
  match v with
  | None => "undefined"
  | Some (JBool true) => "true"
  | Some (JBool false) => "false"
  | Some (JNum n) => NilZero.string_of_int (Z.to_int n)
  | Some (JStr s) => s
  | Some (JDate t) => toISOString t
  | Some (JObj _) => "[object Object]"
  end.

(** [v.k] on a value that is there. *)
Definition member (k : string) (d : Body) : option json :=
  match d with
  | BJson j => field k j
  | BHtml _ => None
  end.

(** [v.k], which throws when [v] is undefined. *)
Definition get_member (k : string) (v : option json) : Result (option json) :=
  match v with
  | None => inl (mkExn ("Cannot read properties of undefined (reading '" +++ k +++ "')"))
  | Some j => inr (field k j)
  end.

(** [v?.k] *)
Definition opt_member (k : string) (v : option json) : option json :=
  match v with
  | None => None
  | Some j => field k j
  end.

(** [v.toString()] *)
Definition js_toString (v : option json) : Result string :=
  match v with
  | None => inl (mkExn "Cannot read properties of undefined (reading 'toString')")
  | Some _ => inr (js_String v)
  end.

(** [a || b] on a value and a string literal. *)
Definition js_or (a : option json) (b : string) : json :=
  match a with
  | Some v => if js_truthy a then v else JStr b
  | None => JStr b
  end.

(** [process.env.REACT_APP_API_URL || '/api'] *)
Definition API_BASE : string :=
  match REACT_APP_API_URL with
  | Some s => if truthy s then s else "/api"
  | None => "/api"
  end.

(** The request interceptor: the header it puts on the request. *)
Definition request_interceptor (b : Browser) : option string :=
  match Storage.getItem "token" (localStorage b) with
  | Some token => if truthy token then Some ("Bearer " +++ token) else None
  | None => None
  end.

(** The response interceptor, error side. *)
Definition response_interceptor (b : Browser) (response : option (Z * Body)) : Browser :=
  match response with
  | Some (code, _) =>
      if (code =? 401)%Z then
        mkBrowser (Storage.removeItem "user" (Storage.removeItem "token" (localStorage b)))
                  "/login"
      else b
  | None => b
  end.

(** One axios call: interceptor, network, status check, interceptor. *)
Definition axios (b : Browser) (m : Method) (url : string) (data : option Credentials)
  : Settled * Browser :=
  match transport m url (request_interceptor b) data with
  | NetworkError _ => (Rejected None, response_interceptor b None)
  | Reply code d =>
      if ((200 <=? code)%Z && (code <? 300)%Z)%bool then (Resolved d, b)
      else (Rejected (Some (code, d)), response_interceptor b (Some (code, d)))
  end.

Definition apiService_login (b : Browser) (credentials : Credentials) :=
  axios b POST (API_BASE +++ "/auth/login") (Some credentials).

Definition apiService_getProfile (b : Browser) :=
  axios b GET (API_BASE +++ "/auth/profile") None.

Definition apiService_getConfig (b : Browser) :=
  axios b GET (API_BASE +++ "/config") None.

Definition apiService_getConfigSetting (b : Browser) (key : string) :=
  axios b GET (API_BASE +++ "/config/" +++ key) None.

Definition apiService_healthCheck (b : Browser) :=
  axios b GET (API_BASE +++ "/health") None.

(** [error.response?.data?.error || fallback] *)
Definition error_text (response : option (Z * Body)) (fallback : string) : json :=
  match response with
  | Some (_, d) => js_or (member "error" d) fallback
  | None => JStr fallback
  end.

(** [AuthProvider]: [logout]. *)
Definition AuthProvider_logout (b : Browser) (s : AuthState) : Browser * AuthState :=
  (mkBrowser (Storage.removeItem "user" (Storage.removeItem "token" (localStorage b)))
             (location_href b),
   mkAuthState None (auth_loading s)).

(** [AuthProvider]: [login]. *)
Definition AuthProvider_login (b : Browser) (s : AuthState) (credentials : Credentials)
  : LoginResult * Browser * AuthState :=
  match apiService_login b credentials with
  | (Resolved response, b1) =>
      if js_truthy (member "success" response) then
        let ls1 := Storage.setItem "token" (js_String (member "token" response))
                                   (localStorage b1) in
        let ls2 := Storage.setItem "user"
                     (match member "user" response with
                      | Some u => JSON_stringify u
                      | None => "undefined"
                      end) ls1 in
        (mkLoginResult true None,
         mkBrowser ls2 (location_href b1),
         mkAuthState (member "user" response) (auth_loading s))
      else (mkLoginResult false (Some (JStr "Login failed")), b1, s)
  | (Rejected response, b1) =>
      (mkLoginResult false (Some (error_text response "Login failed")), b1, s)
  end.

(** [AuthProvider]: the effect run once on mount, followed to the point where
    the profile check has settled.  A saved user that does not parse makes
    the effect throw. *)
Definition AuthProvider_mount (b : Browser) (s : AuthState)
  : Result (Browser * AuthState) :=
  let token := Storage.getItem "token" (localStorage b) in
  let savedUser := Storage.getItem "user" (localStorage b) in
  match token, savedUser with
  | Some t, Some u =>
      if (truthy t && truthy u)%bool then
        match JSON_parse u with
        | inl e => inl e
        | inr parsed =>
            match apiService_getProfile b with
            | (Resolved response, b1) =>
                inr (b1, mkAuthState (member "user" response) false)
            | (Rejected _, b1) =>
                let (b2, s2) := AuthProvider_logout b1 (mkAuthState (Some parsed) false) in
                inr (b2, s2)
            end
        end
      else inr (b, mkAuthState (auth_user s) false)
  | _, _ => inr (b, mkAuthState (auth_user s) false)
  end.

Definition ProtectedRoute (s : AuthState) : RouteView :=
  if auth_loading s then ShowLoading
  else if js_truthy (auth_user s) then ShowChildren
  else NavigateTo "/login".

(** [Login]: what the component returns before its form. *)
Definition Login_redirect (s : AuthState) : option RouteView :=
  if js_truthy (auth_user s) then Some (NavigateTo "/dashboard") else None.

(** [Login]: [handleSubmit]. *)
Definition Login_handleSubmit (b : Browser) (s : AuthState) (f : LoginState)
  : Browser * AuthState * LoginState :=
  let '(result, b1, s1) := AuthProvider_login b s (login_credentials f) in
  (b1, s1,
   mkLoginState (login_credentials f)
                (if negb (result_success result) then result_error result
                 else Some (JStr ""))
                false).

(** [Dashboard]: [loadConfig]. *)
Definition Dashboard_loadConfig (b : Browser) (d : DashboardState)
  : Browser * DashboardState :=
  match apiService_getConfig b with
  | (Resolved response, b1) =>
      if js_truthy (member "success" response) then
        (b1, mkDashboardState (member "config" response) false (dash_error d))
      else
        (b1, mkDashboardState (dash_config d) false (JStr "Failed to load configuration"))
  | (Rejected response, b1) =>
      (b1, mkDashboardState (dash_config d) false
                            (error_text response "Failed to load configuration"))
  end.

(** [Dashboard]: what it renders. *)
Definition Dashboard_view (d : DashboardState) : DashboardView :=
  if dash_loading d then DashLoading
  else if js_truthy (Some (dash_error d)) then DashError (dash_error d)
  else
    let promoBanner := opt_member "promoBanner" (dash_config d) in
    DashBoard
      (mkBoard (if js_truthy promoBanner
                then Some (opt_member "color" promoBanner, opt_member "text" promoBanner)
                else None)
               (opt_member "text" promoBanner)
               (opt_member "color" promoBanner)
               (js_truthy (opt_member "newCheckout"
                             (opt_member "features" (dash_config d))))).

(** The object literal of [loadAllSettings]; any member read on an undefined
    value throws. *)
Definition all_settings (response : Body) : Result Obj.t :=
  match get_member "promoBanner" (member "config" response) with
  | inl e => inl e
  | inr promoBanner =>
      match get_member "text" promoBanner with
      | inl e => inl e
      | inr text =>
          match get_member "color" promoBanner with
          | inl e => inl e
          | inr color =>
              match get_member "features" (member "config" response) with
              | inl e => inl e
              | inr features =>
                  match get_member "newCheckout" features with
                  | inl e => inl e
                  | inr newCheckout =>
                      match js_toString newCheckout with
                      | inl e => inl e
                      | inr flag =>
                          inr [("PromoBanner/Text", text);
                               ("PromoBanner/Color", color);
                               ("Feature/NewCheckout", Some (JStr flag))]
                      end
                  end
              end
          end
      end
  end.

(** [ConfigurationDetail]: [loadAllSettings]. *)
Definition ConfigurationDetail_loadAllSettings (b : Browser) (d : DetailState)
  : Browser * DetailState :=
  match apiService_getConfig b with
  | (Resolved response, b1) =>
      if js_truthy (member "success" response) then
        match all_settings response with
        | inr settings => (b1, mkDetailState settings false (detail_selected d))
        | inl _ => (b1, mkDetailState (detail_settings d) false (detail_selected d))
        end
      else (b1, mkDetailState (detail_settings d) false (detail_selected d))
  | (Rejected _, b1) =>
      (b1, mkDetailState (detail_settings d) false (detail_selected d))
  end.

(** [ConfigurationDetail]: [loadSpecificSetting]. *)
Definition ConfigurationDetail_loadSpecificSetting
           (b : Browser) (d : DetailState) (key : string) : Browser * DetailState :=
  match apiService_getConfigSetting b key with
  | (Resolved response, b1) =>
      if js_truthy (member "success" response) then
        (b1, mkDetailState (Obj.set key (member "value" response) (detail_settings d))
                           (detail_loading d) (detail_selected d))
      else (b1, d)
  | (Rejected _, b1) => (b1, d)
  end.

End Frontend.

(** ** The client in front of the server *)

(** The server as the client's network, at one clock reading: the three
    routes the client reaches by a fixed path.  Every other request is left
    to [elsewhere]. *)
Definition reply_of (r : Async Response) : Wire :=
  match outcome r with
  | inr resp => Reply (status resp) (body resp)
  | inl e => NetworkError e
  end.

Definition server (jwt : Jwt) (bcrypt : Bcrypt) (env : ProcessEnv) (azure : Azure)
           (clock : Z) (elsewhere : Transport) : Transport :=
  fun m url authorization data =>
    let req := mkRequest authorization
                         (option_map cred_username data)
                         (option_map cred_password data) "" None in
    match m with
    | POST =>
        if url === "/api/auth/login"
        then reply_of (app jwt bcrypt env azure PostLogin clock req)
        else elsewhere m url authorization data
    | GET =>
        if url === "/api/auth/profile"
        then reply_of (app jwt bcrypt env azure GetProfile clock req)
        else if url === "/api/config"
        then reply_of (app jwt bcrypt env azure GetConfig clock req)
        else elsewhere m url authorization data
    end.

(** The request the server sees when the client sends its stored token. *)
Definition request_from (b : Browser) : Request :=
  mkRequest (request_interceptor b) None None "" None.

Module FakeBrowser.

Definition toISOString (t : Z) : string := "2023-11-14T22:13:20.000Z".

(** A stand-in for [JSON.stringify] and [JSON.parse]: only the name is kept. *)
Definition stringify (j : json) : string :=
  match field "name" j with
  | Some (JStr n) => n
  | _ => "{}"
  end.

Definition parse (s : string) : Result json :=
  if truthy s then inr (JObj [("name", JStr s)])
  else inl (mkExn "Unexpected end of JSON input").

Definition nowhere : Transport :=
  fun _ _ _ _ => NetworkError (mkExn "Network Error").

Definition fresh : Browser := mkBrowser [] "/dashboard".

Definition signed_in (token : string) : Browser :=
  mkBrowser [("token", token); ("user", "Demo User")] "/dashboard".

Definition wrong_credentials : Credentials :=
  mkCredentials "demo@ltimindtree.com" "letmein".

(** A server that welcomes whoever posts to it. *)
Definition welcoming : Transport :=
  fun m _ _ _ =>
    match m with
    | POST =>
        Reply 200 (BJson (JObj [("success", JBool true);
                                ("token", JStr "header.payload.signature");
                                ("user", JObj [("name", JStr "Demo User")])]))
    | GET => NetworkError (mkExn "Network Error")
    end.

(** A server that reports success and forgets the token. *)
Definition forgetful : Transport :=
  fun _ _ _ _ => Reply 200 (BJson (JObj [("success", JBool true)])).

End FakeBrowser.

(** A status axios resolves on. *)
Definition is_2xx (code : Z) : bool := ((200 <=? code)%Z && (code <? 300)%Z)%bool.

(** Every string a JSON value holds, member names included. *)
Fixpoint strings_of (j : json) : list string :=
  match j with
  | JStr s => [s]
  | JObj fs =>
      flat_map (fun kv => match kv with (k, v) => k :: strings_of v end) fs
  | _ => []
  end.

(** An object without its member [k]. *)
Definition without (k : string) (j : json) : json :=
  match j with
  | JObj fs => JObj (filter (fun kv => negb (String.eqb (fst kv) k)) fs)
  | _ => j
  end.

Definition username_and_password_required : Response :=
  res_status_json 400 (JObj [("error", JStr "Username and password required")]).

(** ** Proof steps shared by the handlers *)

Ltac run_handler :=
  unfold try_catch, bind, ret, throw, await_getConfigurationSetting; simpl.

Ltac settle_lookups :=
  repeat match goal with
         | |- context [match ?x with inl _ => _ | inr _ => _ end] => destruct x
         end;
  eexists; (split; [reflexivity|]); (split; [reflexivity|]);
  intros; congruence.

(** * Properties *)

(** ** Header parsing and the gate *)

Lemma split_no_space (s : string) :
  no_space s = true -> split " " s = [s].
Proof.
  induction s as [|c r IH]; simpl; intro H.
  - reflexivity.
  - apply andb_true_iff in H as [Hc Hr].
    apply negb_true_iff in Hc. rewrite Hc, (IH Hr). reflexivity.
Qed.

Lemma bearer_token_of_header (req : Request) (token : string) :
  authorization req = Some ("Bearer " +++ token) ->
  compact token = true ->
  bearer_token req = Some token.
Proof.
  intros Hh Hc. apply andb_true_iff in Hc as [_ Hs].
  unfold bearer_token. rewrite Hh. cbn.
  rewrite (split_no_space _ Hs). reflexivity.
Qed.

(** The gate lets a request through exactly when it carries a session, and
    otherwise answers on the spot. *)
Lemma authenticateToken_session jwt env clock req next :
  authenticateToken jwt env clock req next =
  match session jwt env clock req with
  | Some c => next (set_user req c)
  | None => ret (if truthy_opt (bearer_token req)
                 then invalid_or_expired else access_token_required)
  end.
Proof.
  unfold authenticateToken, session.
  destruct (bearer_token req) as [token|]; simpl; [|reflexivity].
  destruct (truthy token); simpl; [|reflexivity].
  destruct (verify jwt token (JWT_SECRET env) clock); reflexivity.
Qed.

Lemma session_of_header jwt env clock req token c :
  authorization req = Some ("Bearer " +++ token) ->
  compact token = true ->
  verify jwt token (JWT_SECRET env) clock = inr c ->
  session jwt env clock req = Some c.
Proof.
  intros Hh Hc Hv. unfold session.
  rewrite (bearer_token_of_header _ _ Hh Hc).
  apply andb_true_iff in Hc as [Ht _]. rewrite Ht, Hv. reflexivity.
Qed.

(** ** The test token format obeys the package's contract *)

Module FakeFacts.
Import Fake.

Lemma dec_enc_pos p r : dec_pos (enc_pos p ++ r) = Some (p, r).
Proof. induction p as [q IH|q IH|]; simpl; try rewrite IH; reflexivity. Qed.

Lemma dec_enc_Z z r : dec_Z (enc_Z z ++ r) = Some (z, r).
Proof. destruct z; simpl; try rewrite dec_enc_pos; reflexivity. Qed.

Lemma dec_enc_string s r : dec_string (enc_string s ++ r) = Some (s, r).
Proof.
  induction s as [|c s IH]; [reflexivity|].
  destruct c. simpl. rewrite IH. reflexivity.
Qed.

Lemma undigits_digits bs : undigits (digits bs) = Some bs.
Proof.
  induction bs as [|b bs IH]; [reflexivity|].
  simpl. rewrite IH. destruct b; reflexivity.
Qed.

Lemma no_space_digits bs : no_space (digits bs) = true.
Proof.
  induction bs as [|b bs IH]; [reflexivity|].
  simpl. rewrite IH. destruct b; reflexivity.
Qed.

Lemma jwt_decode_sign p k d T :
  jwt_decode (jwt_sign p k d T) =
  Some (k, claims_of p T
             (T + match Timespan.seconds d with Some n => n | None => 0 end)).
Proof.
  unfold jwt_decode, jwt_sign. rewrite undigits_digits.
  rewrite dec_enc_string, dec_enc_Z, !dec_enc_string, dec_enc_Z.
  rewrite <- (app_nil_r (enc_Z _)), dec_enc_Z. reflexivity.
Qed.

Lemma jwt_laws : JwtLaws jwt.
Proof.
  split.
  - intros p k d span T t Hd Hlt. simpl. unfold jwt_verify.
    rewrite jwt_decode_sign, Hd, String.eqb_refl. simpl.
    destruct (Z.leb_spec (T + span) t); [lia | reflexivity].
  - intros p k d span T t Hd Hle. simpl. unfold jwt_verify.
    rewrite jwt_decode_sign, Hd, String.eqb_refl. simpl.
    destruct (Z.leb_spec (T + span) t); [eauto | lia].
  - intros p k d T. simpl. unfold compact, jwt_sign.
    rewrite no_space_digits, andb_true_r.
    destruct k as [|[] ?]; reflexivity.
Qed.

End FakeFacts.

(** ** Building the client *)

Lemma getAppConfigClient_cases azure :
  (exists error, getSecret azure SECRET_NAME = inl error
                 /\ getAppConfigClient azure = (inl error, [EvGetSecret SECRET_NAME]))
  \/ (exists s error, getSecret azure SECRET_NAME = inr s
                      /\ AppConfigurationClient azure (secret_value s) = inl error
                      /\ getAppConfigClient azure =
                         (inl error, [EvGetSecret SECRET_NAME; EvNewClient (secret_value s)]))
  \/ (exists s client, getSecret azure SECRET_NAME = inr s
                       /\ AppConfigurationClient azure (secret_value s) = inr client
                       /\ getAppConfigClient azure =
                          (inr client, [EvGetSecret SECRET_NAME; EvNewClient (secret_value s)])).
Proof.
  unfold getAppConfigClient, await_getSecret, new_AppConfigurationClient,
    try_catch, bind, throw.
  destruct (getSecret azure SECRET_NAME) as [e|s] eqn:Hs; simpl.
  - left. eauto.
  - destruct (AppConfigurationClient azure (secret_value s)) as [e|c] eqn:Hc; simpl.
    + right; left. eauto.
    + right; right. eauto.
Qed.

Lemma getAppConfigClient_ok azure s client :
  getSecret azure SECRET_NAME = inr s ->
  AppConfigurationClient azure (secret_value s) = inr client ->
  getAppConfigClient azure =
  (inr client, [EvGetSecret SECRET_NAME; EvNewClient (secret_value s)]).
Proof.
  intros Hs Hc.
  unfold getAppConfigClient, await_getSecret, new_AppConfigurationClient,
    try_catch, bind, throw.
  rewrite Hs. simpl. rewrite Hc. reflexivity.
Qed.

(** ** What each configuration handler does, call by call *)

Lemma config_run azure req :
  config azure req =
  match getAppConfigClient azure with
  | (inl error, t) =>
      (inr (res_status_json 500 (failure_json "Failed to load configuration" error)), t)
  | (inr client, t) =>
      match getConfigurationSetting azure client "PromoBanner/Text" with
      | inl error =>
          (inr (res_status_json 500 (failure_json "Failed to load configuration" error)),
           t ++ [EvGetSetting client "PromoBanner/Text"])
      | inr promoText =>
          match getConfigurationSetting azure client "PromoBanner/Color" with
          | inl error =>
              (inr (res_status_json 500 (failure_json "Failed to load configuration" error)),
               t ++ [EvGetSetting client "PromoBanner/Text";
                     EvGetSetting client "PromoBanner/Color"])
          | inr promoColor =>
              match getConfigurationSetting azure client "Feature/NewCheckout" with
              | inl error =>
                  (inr (res_status_json 500
                          (failure_json "Failed to load configuration" error)),
                   t ++ [EvGetSetting client "PromoBanner/Text";
                         EvGetSetting client "PromoBanner/Color";
                         EvGetSetting client "Feature/NewCheckout"])
              | inr newCheckoutEnabled =>
                  (inr (res_json (config_json promoText promoColor newCheckoutEnabled)),
                   t ++ [EvGetSetting client "PromoBanner/Text";
                         EvGetSetting client "PromoBanner/Color";
                         EvGetSetting client "Feature/NewCheckout"])
              end
          end
      end
  end.
Proof.
  unfold config.
  destruct (getAppConfigClient azure) as [[error|client] t]; run_handler.
  - now rewrite app_nil_r.
  - destruct (getConfigurationSetting azure client "PromoBanner/Text"); simpl;
      [now rewrite app_nil_r|].
    destruct (getConfigurationSetting azure client "PromoBanner/Color"); simpl;
      [now rewrite app_nil_r|].
    destruct (getConfigurationSetting azure client "Feature/NewCheckout"); simpl;
      [now rewrite app_nil_r|reflexivity].
Qed.

Lemma configKey_run azure req :
  configKey azure req =
  match getAppConfigClient azure with
  | (inl error, t) =>
      (inr (res_status_json 500
              (failure_json "Failed to load configuration setting" error)), t)
  | (inr client, t) =>
      match getConfigurationSetting azure client (params_key req) with
      | inl error =>
          (inr (res_status_json 500
                  (failure_json "Failed to load configuration setting" error)),
           t ++ [EvGetSetting client (params_key req)])
      | inr setting =>
          (inr (res_json (JObj [("success", JBool true);
                                ("key", JStr (Setting.key setting));
                                ("value", JStr (Setting.value setting));
                                ("lastModified", JDate (Setting.lastModified setting))])),
           t ++ [EvGetSetting client (params_key req)])
      end
  end.
Proof.
  unfold configKey.
  destruct (getAppConfigClient azure) as [[error|client] t]; run_handler.
  - now rewrite app_nil_r.
  - destruct (getConfigurationSetting azure client (params_key req)); simpl;
      [now rewrite app_nil_r|reflexivity].
Qed.

Lemma legacy_run azure req :
  legacy azure req =
  match getAppConfigClient azure with
  | (inl error, t) => (inr (res_send (legacy_error_page (message error))), t)
  | (inr client, t) =>
      match getConfigurationSetting azure client "PromoBanner/Text" with
      | inl error =>
          (inr (res_send (legacy_error_page (message error))),
           t ++ [EvGetSetting client "PromoBanner/Text"])
      | inr promoText =>
          match getConfigurationSetting azure client "PromoBanner/Color" with
          | inl error =>
              (inr (res_send (legacy_error_page (message error))),
               t ++ [EvGetSetting client "PromoBanner/Text";
                     EvGetSetting client "PromoBanner/Color"])
          | inr promoColor =>
              match getConfigurationSetting azure client "Feature/NewCheckout" with
              | inl error =>
                  (inr (res_send (legacy_error_page (message error))),
                   t ++ [EvGetSetting client "PromoBanner/Text";
                         EvGetSetting client "PromoBanner/Color";
                         EvGetSetting client "Feature/NewCheckout"])
              | inr newCheckoutEnabled =>
                  (inr (res_send (legacy_page (Setting.value promoColor)
                                              (Setting.value promoText)
                                              (Setting.value newCheckoutEnabled === "true"))),
                   t ++ [EvGetSetting client "PromoBanner/Text";
                         EvGetSetting client "PromoBanner/Color";
                         EvGetSetting client "Feature/NewCheckout"])
              end
          end
      end
  end.
Proof.
  unfold legacy.
  destruct (getAppConfigClient azure) as [[error|client] t]; run_handler.
  - now rewrite app_nil_r.
  - destruct (getConfigurationSetting azure client "PromoBanner/Text"); simpl;
      [now rewrite app_nil_r|].
    destruct (getConfigurationSetting azure client "PromoBanner/Color"); simpl;
      [now rewrite app_nil_r|].
    destruct (getConfigurationSetting azure client "Feature/NewCheckout"); simpl;
      [now rewrite app_nil_r|reflexivity].
Qed.

(** Behind the gate, a request with a session is handed to the handler with
    the claims attached. *)
Lemma app_with_session jwt bcrypt env azure route clock req c :
  protected route = true ->
  session jwt env clock req = Some c ->
  app jwt bcrypt env azure route clock req =
  match route with
  | GetProfile => profile (set_user req c)
  | GetConfig => config azure (set_user req c)
  | GetConfigKey => configKey azure (set_user req c)
  | _ => app jwt bcrypt env azure route clock req
  end.
Proof.
  intros Hp Hs.
  destruct route; try discriminate Hp; simpl;
    rewrite authenticateToken_session, Hs; reflexivity.
Qed.

(** Without a session the gate answers by itself, with an empty trace. *)
Lemma app_without_session jwt bcrypt env azure route clock req :
  protected route = true ->
  session jwt env clock req = None ->
  app jwt bcrypt env azure route clock req =
  ret (if truthy_opt (bearer_token req) then invalid_or_expired
       else access_token_required).
Proof.
  intros Hp Hs.
  destruct route; try discriminate Hp; simpl;
    rewrite authenticateToken_session, Hs; reflexivity.
Qed.

(** Every route answers: no error escapes a handler. *)
Lemma app_answers jwt bcrypt env azure route clock req :
  exists resp, outcome (app jwt bcrypt env azure route clock req) = inr resp.
Proof.
  assert (Hconfig : forall r, exists resp, outcome (config azure r) = inr resp).
  { intro r. rewrite config_run.
    destruct (getAppConfigClient azure) as [[e|client] t]; [eexists; reflexivity|].
    repeat match goal with
           | |- context [match ?x with inl _ => _ | inr _ => _ end] => destruct x
           end; eexists; reflexivity. }
  assert (HconfigKey : forall r, exists resp, outcome (configKey azure r) = inr resp).
  { intro r. rewrite configKey_run.
    destruct (getAppConfigClient azure) as [[e|client] t]; [eexists; reflexivity|].
    destruct (getConfigurationSetting azure client (params_key r)); eexists; reflexivity. }
  destruct route; simpl; rewrite ?authenticateToken_session.
  - unfold login.
    destruct (body_username req) as [username|]; [|eexists; reflexivity].
    destruct (body_password req) as [password|]; [|eexists; reflexivity].
    destruct (negb (truthy username) || negb (truthy password)); [eexists; reflexivity|].
    generalize (find (fun u => User.username u === username) users).
    intros [u|]; [|eexists; reflexivity].
    unfold lift, bind, try_catch, ret.
    destruct (compare bcrypt password (User.password u)) as [e|[|]]; eexists; reflexivity.
  - destruct (session jwt env clock req); eexists; reflexivity.
  - destruct (session jwt env clock req); [apply Hconfig|eexists; reflexivity].
  - destruct (session jwt env clock req); [apply HconfigKey|eexists; reflexivity].
  - rewrite legacy_run.
    destruct (getAppConfigClient azure) as [[e|client] t]; [eexists; reflexivity|].
    repeat match goal with
           | |- context [match ?x with inl _ => _ | inr _ => _ end] => destruct x
           end; eexists; reflexivity.
Qed.

(** ** C1: the gate answers before anything goes upstream *)

(** C1 (amended).  A request to GET /api/config, GET /api/config/:key or
    GET /api/auth/profile that carries no valid session token is answered by
    the gate itself with an empty trace, so neither the secrets store nor the
    settings store is called: with 401 when no token can be read from the
    Authorization header, with 403 when a token is there and does not
    verify. *)
Theorem unauthenticated_requests_stop_at_the_gate
        jwt bcrypt env azure route clock req :
  protected route = true ->
  session jwt env clock req = None ->
  exists resp,
    outcome (app jwt bcrypt env azure route clock req) = inr resp
    /\ trace (app jwt bcrypt env azure route clock req) = []
    /\ status resp = (if truthy_opt (bearer_token req) then 403 else 401).
Proof.
  intros Hp Hs. rewrite (app_without_session _ _ _ _ _ _ _ Hp Hs).
  eexists; repeat split. destruct (truthy_opt (bearer_token req)); reflexivity.
Qed.

Lemma unauthenticated_requests_stop_at_the_gate_witness :
  exists resp,
    outcome (app Fake.jwt Fake.bcrypt Fake.env Fake.azure GetConfigKey 7
                 (Fake.key_request "Bearer" "PromoBanner/Text")) = inr resp
    /\ trace (app Fake.jwt Fake.bcrypt Fake.env Fake.azure GetConfigKey 7
                  (Fake.key_request "Bearer" "PromoBanner/Text")) = []
    /\ status resp = 401.
Proof.
  apply (unauthenticated_requests_stop_at_the_gate
           Fake.jwt Fake.bcrypt Fake.env Fake.azure GetConfigKey 7
           (Fake.key_request "Bearer" "PromoBanner/Text"));
    reflexivity.
Defined.

(** C1 as stated fails: a request whose header holds a token that does not
    verify carries no valid session token, and is answered with 403. *)
Lemma invalid_token_is_403_not_401 :
  protected GetConfig = true
  /\ session Fake.jwt Fake.env 7 (Fake.with_header "Bearer garbage") = None
  /\ ~ (exists resp,
          outcome (app Fake.jwt Fake.bcrypt Fake.env Fake.azure GetConfig 7
                       (Fake.with_header "Bearer garbage")) = inr resp
          /\ status resp = 401)
  /\ app Fake.jwt Fake.bcrypt Fake.env Fake.azure GetConfig 7
         (Fake.with_header "Bearer garbage")
     = (inr invalid_or_expired, []).
Proof.
  repeat split. intros [resp [Ho Hs]].
  vm_compute in Ho. inversion Ho; subst. discriminate Hs.
Qed.

(** ** C2: one answer for every failed login *)

Lemma login_run jwt bcrypt env clock req username password :
  body_username req = Some username ->
  body_password req = Some password ->
  truthy username = true ->
  truthy password = true ->
  login jwt bcrypt env clock req =
  match find (fun u => User.username u === username) users with
  | None => ret invalid_credentials
  | Some u =>
      match compare bcrypt password (User.password u) with
      | inl error =>
          ret (res_status_json 500 (JObj [("error", JStr "Internal server error")]))
      | inr false => ret invalid_credentials
      | inr true =>
          ret (res_json
                 (JObj [("success", JBool true);
                        ("token",
                         JStr (sign jwt (mkPayload (User.id u) (User.username u)
                                                   (User.name u))
                                    (JWT_SECRET env) "24h" clock));
                        ("user", user_json u)]))
      end
  end.
Proof.
  intros Hu Hp Htu Htp. unfold login. rewrite Hu, Hp, Htu, Htp.
  generalize (find (fun u => User.username u === username) users).
  intros [u|]; simpl; [|reflexivity].
  unfold lift, bind, try_catch, ret.
  destruct (compare bcrypt password (User.password u)) as [e|[|]]; reflexivity.
Qed.

(** C2 (amended).  For every pair of a non-empty username and a non-empty
    password that does not match the fixture user, login answers with the one
    [invalid_credentials] response (401, body [{error: 'Invalid
    credentials'}]) and calls nothing upstream, whether the username is
    absent from the user set or it is present and the password check says
    no.  A request whose username or password is missing or empty is answered
    400 'Username and password required' instead. *)
Theorem failed_logins_are_indistinguishable
        jwt bcrypt env clock req username password :
  body_username req = Some username ->
  body_password req = Some password ->
  username <> "" ->
  password <> "" ->
  (find (fun u => User.username u === username) users = None
   \/ exists u, find (fun u => User.username u === username) users = Some u
                /\ compare bcrypt password (User.password u) = inr false) ->
  login jwt bcrypt env clock req = (inr invalid_credentials, [])
  /\ status invalid_credentials = 401
  /\ body invalid_credentials = BJson (JObj [("error", JStr "Invalid credentials")])
  /\ (forall req',
        truthy_opt (body_username req') = false
        \/ truthy_opt (body_password req') = false ->
        login jwt bcrypt env clock req' = (inr username_and_password_required, [])
        /\ status username_and_password_required = 400
        /\ body username_and_password_required
           = BJson (JObj [("error", JStr "Username and password required")])).
Proof.
  intros Hu Hp Hne Hnp Hmiss.
  assert (Htu : truthy username = true) by (destruct username; [congruence|reflexivity]).
  assert (Htp : truthy password = true) by (destruct password; [congruence|reflexivity]).
  rewrite (login_run _ _ _ _ _ _ _ Hu Hp Htu Htp).
  split.
  { destruct Hmiss as [Hnone|[u [Hsome Hcmp]]].
    - rewrite Hnone. reflexivity.
    - rewrite Hsome, Hcmp. reflexivity. }
  split; [reflexivity|]. split; [reflexivity|].
  intros req' Hempty. split; [|split; reflexivity].
  unfold login.
  destruct (body_username req') as [u'|]; [|reflexivity].
  destruct (body_password req') as [p'|]; [|reflexivity].
  cbn [truthy_opt] in Hempty.
  destruct Hempty as [E|E]; rewrite E; [reflexivity|].
  now rewrite orb_true_r.
Qed.

Lemma failed_logins_are_indistinguishable_witness :
  login Fake.jwt Fake.bcrypt Fake.env 7
        (Fake.login_request "nobody@example.com" "password123")
  = (inr invalid_credentials, [])
  /\ login Fake.jwt Fake.bcrypt Fake.env 7
           (Fake.login_request "demo@ltimindtree.com" "letmein")
     = (inr invalid_credentials, [])
  /\ status invalid_credentials = 401
  /\ body invalid_credentials = BJson (JObj [("error", JStr "Invalid credentials")])
  /\ login Fake.jwt Fake.bcrypt Fake.env 7 (Fake.login_request "" "letmein")
     = (inr username_and_password_required, []).
Proof.
  destruct (failed_logins_are_indistinguishable Fake.jwt Fake.bcrypt Fake.env 7
              (Fake.login_request "nobody@example.com" "password123")
              "nobody@example.com" "password123" eq_refl eq_refl)
    as [Hnobody _].
  { discriminate. }
  { discriminate. }
  { left. reflexivity. }
  destruct (failed_logins_are_indistinguishable Fake.jwt Fake.bcrypt Fake.env 7
              (Fake.login_request "demo@ltimindtree.com" "letmein")
              "demo@ltimindtree.com" "letmein" eq_refl eq_refl)
    as [Hwrong [Hstatus [Hbody Hempty]]].
  { discriminate. }
  { discriminate. }
  { right. eexists. split; reflexivity. }
  split; [exact Hnobody|]. split; [exact Hwrong|].
  split; [exact Hstatus|]. split; [exact Hbody|].
  apply (Hempty (Fake.login_request "" "letmein")). left. reflexivity.
Defined.

(** C2 as stated fails: the pair of an empty username and any password does
    not match the fixture user (no user has that name), and login answers 400
    with another body, not the 401 of [invalid_credentials]. *)
Lemma empty_username_is_400_not_401 :
  find (fun u => User.username u === "") users = None
  /\ login Fake.jwt Fake.bcrypt Fake.env 7 (Fake.login_request "" "password123")
     = (inr (res_status_json 400 (JObj [("error", JStr "Username and password required")])),
        [])
  /\ login Fake.jwt Fake.bcrypt Fake.env 7 (Fake.login_request "" "password123")
     <> (inr invalid_credentials, []).
Proof. repeat split. discriminate. Qed.

(** ** C3 and C10: the token login issues *)

Lemma found_user_is_demo_user username u :
  find (fun x => User.username x === username) users = Some u ->
  u = demo_user /\ username = "demo@ltimindtree.com".
Proof.
  cbn -[String.eqb Js.strict_eq]. unfold Js.strict_eq.
  destruct (String.eqb_spec "demo@ltimindtree.com" username) as [E|E];
    [|discriminate].
  intro H. inversion H. split; [reflexivity | now symmetry].
Qed.

(** The four answers login has. *)
Lemma login_cases jwt bcrypt env clock req :
  login jwt bcrypt env clock req = (inr username_and_password_required, [])
  \/ login jwt bcrypt env clock req = (inr invalid_credentials, [])
  \/ login jwt bcrypt env clock req
     = (inr (res_status_json 500 (JObj [("error", JStr "Internal server error")])), [])
  \/ login jwt bcrypt env clock req
     = (inr (res_json
               (JObj [("success", JBool true);
                      ("token",
                       JStr (sign jwt (payload_of demo_user) (JWT_SECRET env) "24h" clock));
                      ("user", user_json demo_user)])),
        []).
Proof.
  unfold login.
  destruct (body_username req) as [username|]; [|now left].
  destruct (body_password req) as [password|]; [|now left].
  destruct (negb (truthy username) || negb (truthy password)); [now left|].
  destruct (find (fun u => User.username u === username) users) as [u|] eqn:Hfind;
    [|right; now left].
  destruct (found_user_is_demo_user _ _ Hfind) as [-> _].
  unfold lift, bind, try_catch, ret.
  destruct (compare bcrypt password (User.password demo_user)) as [e|[|]].
  - right; right; now left.
  - right; right; right. reflexivity.
  - right; now left.
Qed.

(** A response of login that carries a token is the success response, and the
    token is the one signed for a user of the fixture at that clock reading. *)
Lemma login_token_inv jwt bcrypt env T req resp token :
  outcome (login jwt bcrypt env T req) = inr resp ->
  body_field "token" resp = Some (JStr token) ->
  exists u, In u users
            /\ token = sign jwt (payload_of u) (JWT_SECRET env) "24h" T.
Proof.
  unfold login. intros Ho Hf.
  destruct (body_username req) as [username|];
    [|simpl in Ho; inversion Ho; subst; discriminate Hf].
  destruct (body_password req) as [password|];
    [|simpl in Ho; inversion Ho; subst; discriminate Hf].
  destruct (negb (truthy username) || negb (truthy password));
    [simpl in Ho; inversion Ho; subst; discriminate Hf|].
  destruct (find _ users) as [u|] eqn:Hfind;
    [|simpl in Ho; inversion Ho; subst; discriminate Hf].
  apply find_some in Hfind as [Hin _].
  unfold lift, bind, try_catch, ret, outcome in Ho.
  destruct (compare bcrypt password (User.password u)) as [e|[|]];
    simpl in Ho; inversion Ho; subst; try discriminate Hf.
  exists u. split; [exact Hin|].
  unfold body_field, res_json in Hf. simpl in Hf. now inversion Hf.
Qed.

Lemma timespan_24h : Timespan.seconds "24h" = Some DAY.
Proof. reflexivity. Qed.

(** C3.  A token issued by login at clock reading [T] and presented as
    [Authorization: Bearer <token>] is let through the gate at every reading
    [t] with [T <= t < T + 24h], and is refused with the 403
    "Invalid or expired token" answer at every reading [t >= T + 24h]. *)
Theorem issued_token_lives_24h jwt bcrypt env T req resp token t req' next :
  JwtLaws jwt ->
  outcome (login jwt bcrypt env T req) = inr resp ->
  body_field "token" resp = Some (JStr token) ->
  authorization req' = Some ("Bearer " +++ token) ->
  (T <= t < T + DAY ->
   exists c, verify jwt token (JWT_SECRET env) t = inr c
             /\ authenticateToken jwt env t req' next = next (set_user req' c))
  /\ (T + DAY <= t ->
      (exists err, verify jwt token (JWT_SECRET env) t = inl err)
      /\ authenticateToken jwt env t req' next = (inr invalid_or_expired, [])).
Proof.
  intros L Ho Hf Hh.
  destruct (login_token_inv _ _ _ _ _ _ _ Ho Hf) as [u [_ ->]].
  pose proof (sign_compact _ L (payload_of u) (JWT_SECRET env) "24h" T) as Hc.
  split.
  - intros [_ Hlt].
    pose proof (verify_fresh _ L (payload_of u) (JWT_SECRET env) "24h" DAY T t
                  timespan_24h Hlt) as Hv.
    eexists. split; [exact Hv|].
    rewrite authenticateToken_session.
    now rewrite (session_of_header _ _ _ _ _ _ Hh Hc Hv).
  - intros Hle.
    destruct (verify_expired _ L (payload_of u) (JWT_SECRET env) "24h" DAY T t
                timespan_24h Hle) as [err Hv].
    split; [eauto|].
    rewrite authenticateToken_session. unfold session.
    rewrite (bearer_token_of_header _ _ Hh Hc).
    apply andb_true_iff in Hc as [Ht _]. simpl. rewrite Ht, Hv. reflexivity.
Qed.

Lemma issued_token_lives_24h_witness :
  (5 <= 86404 < 5 + DAY ->
   exists c, verify Fake.jwt (Fake.demo_token 5) (JWT_SECRET Fake.env) 86404 = inr c
             /\ authenticateToken Fake.jwt Fake.env 86404
                  (Fake.with_header ("Bearer " +++ Fake.demo_token 5)) profile
                = profile (set_user (Fake.with_header ("Bearer " +++ Fake.demo_token 5)) c))
  /\ (5 + DAY <= 86404 ->
      (exists err, verify Fake.jwt (Fake.demo_token 5) (JWT_SECRET Fake.env) 86404 = inl err)
      /\ authenticateToken Fake.jwt Fake.env 86404
           (Fake.with_header ("Bearer " +++ Fake.demo_token 5)) profile
         = (inr invalid_or_expired, [])).
Proof.
  apply (issued_token_lives_24h Fake.jwt Fake.bcrypt_yes Fake.env 5
           (Fake.login_request "demo@ltimindtree.com" "open sesame")
           (res_json (JObj [("success", JBool true);
                            ("token", JStr (Fake.demo_token 5));
                            ("user", user_json demo_user)]))
           (Fake.demo_token 5) 86404
           (Fake.with_header ("Bearer " +++ Fake.demo_token 5)) profile).
  - exact FakeFacts.jwt_laws.
  - vm_compute. reflexivity.
  - vm_compute. reflexivity.
  - reflexivity.
Defined.

(** Were the password check to accept, the rest of login is in order: the
    answer is 200 with a token that the signing key verifies, before the
    expiry, to the id, username and name of the fixture user. *)
Lemma accepted_login_issues_a_token_for_the_user
      jwt bcrypt env T req username password u :
  JwtLaws jwt ->
  body_username req = Some username ->
  body_password req = Some password ->
  password <> "" ->
  find (fun x => User.username x === username) users = Some u ->
  compare bcrypt password (User.password u) = inr true ->
  exists resp token,
    login jwt bcrypt env T req = (inr resp, [])
    /\ status resp = 200
    /\ body_field "token" resp = Some (JStr token)
    /\ body_field "user" resp = Some (user_json u)
    /\ u = demo_user
    /\ forall t, t < T + DAY ->
         exists c, verify jwt token (JWT_SECRET env) t = inr c
                   /\ claim_id c = User.id u
                   /\ claim_username c = User.username u
                   /\ claim_name c = User.name u.
Proof.
  intros L Hu Hp Hnp Hfind Hcmp.
  destruct (found_user_is_demo_user _ _ Hfind) as [Hdemo Hname].
  assert (Htu : truthy username = true) by (rewrite Hname; reflexivity).
  assert (Htp : truthy password = true) by (destruct password; [congruence|reflexivity]).
  rewrite (login_run _ _ _ _ _ _ _ Hu Hp Htu Htp), Hfind, Hcmp.
  do 2 eexists. repeat split; try exact Hdemo.
  intros t Hlt. eexists. split.
  - apply (verify_fresh _ L (payload_of u) (JWT_SECRET env) "24h" DAY T t
             timespan_24h Hlt).
  - repeat split.
Qed.

(** C10 (code bug).  The pair that is documented as matching the fixture
    user, demo@ltimindtree.com with 'password123' (the comment on the stored
    hash, the credentials printed on the legacy page and on the login form),
    is refused.  The stored string is not the bcrypt hash of 'password123':
    under its own salt that password hashes to
    [$2b$10$rOzWbkQ9p5Fy8.QqZ6m7Ceg2LVtNfEEV.CtSqtCk2dKmkhKUmFZ6.], so the
    password check answers false, and login answers 401 'Invalid credentials'
    with no token. *)
Theorem documented_credentials_are_refused jwt bcrypt env clock req :
  body_username req = Some "demo@ltimindtree.com" ->
  body_password req = Some "password123" ->
  compare bcrypt "password123" (User.password demo_user) = inr false ->
  login jwt bcrypt env clock req = (inr invalid_credentials, [])
  /\ status invalid_credentials = 401
  /\ body invalid_credentials = BJson (JObj [("error", JStr "Invalid credentials")])
  /\ body_field "token" invalid_credentials = None.
Proof.
  intros Hu Hp Hcmp.
  rewrite (login_run _ _ _ _ _ _ _ Hu Hp eq_refl eq_refl).
  change (find (fun u => User.username u === "demo@ltimindtree.com") users)
    with (Some demo_user).
  cbv iota. rewrite Hcmp. repeat split.
Qed.

Lemma documented_credentials_are_refused_witness :
  login Fake.jwt Fake.bcrypt Fake.env 5
        (Fake.login_request "demo@ltimindtree.com" "password123")
  = (inr invalid_credentials, [])
  /\ status invalid_credentials = 401
  /\ body invalid_credentials = BJson (JObj [("error", JStr "Invalid credentials")])
  /\ body_field "token" invalid_credentials = None.
Proof.
  apply (documented_credentials_are_refused Fake.jwt Fake.bcrypt Fake.env 5
           (Fake.login_request "demo@ltimindtree.com" "password123"));
    reflexivity.
Defined.

(** ** C4: the feature flag is an exact string comparison *)

(** C4.  For an authenticated GET /api/config whose three lookups succeed,
    [config.features.newCheckout] is [true] exactly when the value stored
    under Feature/NewCheckout is the string "true"; the values "True",
    "TRUE", "1" and "" all give [false]. *)
Theorem newCheckout_is_exactly_true
        jwt bcrypt env azure clock req c s client promoText promoColor flag :
  session jwt env clock req = Some c ->
  getSecret azure SECRET_NAME = inr s ->
  AppConfigurationClient azure (secret_value s) = inr client ->
  getConfigurationSetting azure client "PromoBanner/Text" = inr promoText ->
  getConfigurationSetting azure client "PromoBanner/Color" = inr promoColor ->
  getConfigurationSetting azure client "Feature/NewCheckout" = inr flag ->
  exists resp b,
    outcome (app jwt bcrypt env azure GetConfig clock req) = inr resp
    /\ status resp = 200
    /\ newCheckout_of resp = Some (JBool b)
    /\ (b = true <-> Setting.value flag = "true")
    /\ (In (Setting.value flag) ["True"; "TRUE"; "1"; ""] -> b = false).
Proof.
  intros Hs Hsec Hcl Ht Hc Hf.
  rewrite (app_with_session _ _ _ _ GetConfig _ _ _ eq_refl Hs).
  rewrite config_run, (getAppConfigClient_ok _ _ _ Hsec Hcl), Ht, Hc, Hf.
  exists (res_json (config_json promoText promoColor flag)),
         (Setting.value flag === "true").
  repeat split.
  - apply String.eqb_eq.
  - intro E. unfold Js.strict_eq. now apply String.eqb_eq.
  - intro Hin. simpl in Hin.
    destruct Hin as [E|[E|[E|[E|[]]]]]; rewrite <- E; reflexivity.
Qed.

Lemma newCheckout_is_exactly_true_witness :
  exists resp b,
    outcome (app Fake.jwt Fake.bcrypt Fake.env (Fake.azure_with "True") GetConfig 9
                 (Fake.with_header ("Bearer " +++ Fake.demo_token 5))) = inr resp
    /\ status resp = 200
    /\ newCheckout_of resp = Some (JBool b)
    /\ (b = true <-> "True" = "true")
    /\ (In "True" ["True"; "TRUE"; "1"; ""] -> b = false).
Proof.
  apply (newCheckout_is_exactly_true Fake.jwt Fake.bcrypt Fake.env
           (Fake.azure_with "True") 9
           (Fake.with_header ("Bearer " +++ Fake.demo_token 5))
           (mkClaims 1 "demo@ltimindtree.com" "Demo User" 5 86405)
           (mkSecret Fake.CONNECTION) (mkClient Fake.CONNECTION)
           (Setting.mk "PromoBanner/Text" "Summer Sale - 50% Off!" 1700000000000)
           (Setting.mk "PromoBanner/Color" "blue" 1700000000001)
           (Setting.mk "Feature/NewCheckout" "True" 1700000000002));
    vm_compute; reflexivity.
Defined.

(** ** C5: all three values or none *)

(** C5.  An authenticated GET /api/config answers either 200 with a body
    that holds all three values, the stored text, the stored colour and the
    flag, every one of the three lookups having succeeded for the client it
    built, or 500 with a body that has no [config] member and so none of the
    values; and it answers 500 whenever one of the three lookups fails. *)
Theorem config_is_all_or_nothing jwt bcrypt env azure clock req c :
  session jwt env clock req = Some c ->
  exists resp,
    outcome (app jwt bcrypt env azure GetConfig clock req) = inr resp
    /\ ((exists s client promoText promoColor flag,
           getSecret azure SECRET_NAME = inr s
           /\ AppConfigurationClient azure (secret_value s) = inr client
           /\ getConfigurationSetting azure client "PromoBanner/Text" = inr promoText
           /\ getConfigurationSetting azure client "PromoBanner/Color" = inr promoColor
           /\ getConfigurationSetting azure client "Feature/NewCheckout" = inr flag
           /\ status resp = 200
           /\ body resp
              = BJson
                  (JObj [("success", JBool true);
                         ("config",
                          JObj [("promoBanner",
                                 JObj [("text", JStr (Setting.value promoText));
                                       ("color", JStr (Setting.value promoColor))]);
                                ("features",
                                 JObj [("newCheckout",
                                        JBool (Setting.value flag === "true"))])])]))
        \/ (status resp = 500
            /\ body_field "config" resp = None
            /\ exists error,
                upstream_error azure error
                /\ body resp
                   = BJson (JObj [("success", JBool false);
                                  ("error", JStr "Failed to load configuration");
                                  ("details", JStr (message error))])))
    /\ (forall s client key error,
           getSecret azure SECRET_NAME = inr s ->
           AppConfigurationClient azure (secret_value s) = inr client ->
           In key CONFIG_KEYS ->
           getConfigurationSetting azure client key = inl error ->
           status resp = 500 /\ body_field "config" resp = None).
Proof.
  intros Hs.
  rewrite (app_with_session _ _ _ _ GetConfig _ _ _ eq_refl Hs), config_run.
  destruct (getAppConfigClient_cases azure)
    as [[e [Hsec ->]]|[[s [e [Hsec [Hcl ->]]]]|[s [client [Hsec [Hcl ->]]]]]].
  - eexists. split; [reflexivity|]. split.
    + right. split; [reflexivity|]. split; [reflexivity|].
      exists e. split; [left; exact Hsec|reflexivity].
    + intros s' client key error Hs'. congruence.
  - eexists. split; [reflexivity|]. split.
    + right. split; [reflexivity|]. split; [reflexivity|].
      exists e. split; [right; left; eauto|reflexivity].
    + intros s' client key error Hs' Hc'. congruence.
  - destruct (getConfigurationSetting azure client "PromoBanner/Text")
      as [e1|promoText] eqn:H1;
      [|destruct (getConfigurationSetting azure client "PromoBanner/Color")
          as [e2|promoColor] eqn:H2;
        [|destruct (getConfigurationSetting azure client "Feature/NewCheckout")
            as [e3|flag] eqn:H3]];
      (eexists; split; [reflexivity|]).
    1-3: split;
      [right; split; [reflexivity|]; split; [reflexivity|];
       eexists; split; [right; right; eauto|reflexivity]
      | intros; split; reflexivity].
    split.
    + left. exists s, client, promoText, promoColor, flag.
      repeat split; assumption.
    + intros s' client' key error Hs' Hc' Hin Hfail.
      assert (s' = s) by congruence. subst s'.
      assert (client' = client) by congruence. subst client'.
      simpl in Hin. destruct Hin as [E|[E|[E|[]]]]; subst key; congruence.
Qed.

Lemma config_is_all_or_nothing_witness :
  (exists resp,
      outcome (app Fake.jwt Fake.bcrypt Fake.env Fake.azure GetConfig 9
                   (Fake.with_header ("Bearer " +++ Fake.demo_token 5))) = inr resp
      /\ status resp = 200
      /\ body resp
         = BJson
             (JObj [("success", JBool true);
                    ("config",
                     JObj [("promoBanner",
                            JObj [("text", JStr "Summer Sale - 50% Off!");
                                  ("color", JStr "blue")]);
                           ("features", JObj [("newCheckout", JBool true)])])]))
  /\ (exists resp,
        outcome (app Fake.jwt Fake.bcrypt Fake.env Fake.azure_no_color GetConfig 9
                     (Fake.with_header ("Bearer " +++ Fake.demo_token 5))) = inr resp
        /\ status resp = 500
        /\ body_field "config" resp = None
        /\ body_field "details" resp
           = Some (JStr "Service request failed. Status: 404")).
Proof.
  split.
  - destruct (config_is_all_or_nothing Fake.jwt Fake.bcrypt Fake.env Fake.azure 9
                (Fake.with_header ("Bearer " +++ Fake.demo_token 5))
                (mkClaims 1 "demo@ltimindtree.com" "Demo User" 5 86405) eq_refl)
      as [resp [Ho [[Hall | Hnone] _]]].
    + destruct Hall as [s [client [st [sc [sf [_ [_ [H1 [H2 [H3 [Hst Hb]]]]]]]]]]].
      exists resp. split; [exact Ho|]. split; [exact Hst|].
      rewrite Hb.
      inversion H1; subst st. inversion H2; subst sc. inversion H3; subst sf.
      reflexivity.
    + destruct Hnone as [H500 _]. exfalso.
      vm_compute in Ho. inversion Ho; subst resp. discriminate H500.
  - destruct (config_is_all_or_nothing Fake.jwt Fake.bcrypt Fake.env
                Fake.azure_no_color 9
                (Fake.with_header ("Bearer " +++ Fake.demo_token 5))
                (mkClaims 1 "demo@ltimindtree.com" "Demo User" 5 86405) eq_refl)
      as [resp [Ho [_ Hfail]]].
    destruct (Hfail (mkSecret Fake.CONNECTION) (mkClient Fake.CONNECTION)
                    "PromoBanner/Color"
                    (mkExn "Service request failed. Status: 404")
                    eq_refl eq_refl (or_intror (or_introl eq_refl)) eq_refl)
      as [H500 Hcfg].
    exists resp. split; [exact Ho|]. split; [exact H500|]. split; [exact Hcfg|].
    vm_compute in Ho. inversion Ho; subst resp. reflexivity.
Defined.

(** ** C6: one entry, named by the caller, returned as it is *)

(** C6.  For an authenticated GET /api/config/:key with any key at all, once
    the client is built exactly one settings-store call is made, for the key
    the caller named, and when the store answers with an entry, its key, value
    and modification timestamp are the members of the 200 response. *)
Theorem configKey_returns_the_named_entry
        jwt bcrypt env azure clock req c s client :
  session jwt env clock req = Some c ->
  getSecret azure SECRET_NAME = inr s ->
  AppConfigurationClient azure (secret_value s) = inr client ->
  trace (app jwt bcrypt env azure GetConfigKey clock req)
  = [EvGetSecret SECRET_NAME; EvNewClient (secret_value s);
     EvGetSetting client (params_key req)]
  /\ forall setting,
      getConfigurationSetting azure client (params_key req) = inr setting ->
      outcome (app jwt bcrypt env azure GetConfigKey clock req)
      = inr (res_json (JObj [("success", JBool true);
                             ("key", JStr (Setting.key setting));
                             ("value", JStr (Setting.value setting));
                             ("lastModified", JDate (Setting.lastModified setting))])).
Proof.
  intros Hs Hsec Hcl.
  rewrite (app_with_session _ _ _ _ GetConfigKey _ _ _ eq_refl Hs).
  rewrite configKey_run, (getAppConfigClient_ok _ _ _ Hsec Hcl).
  change (params_key (set_user req c)) with (params_key req).
  split.
  - destruct (getConfigurationSetting azure client (params_key req)); reflexivity.
  - intros setting ->. reflexivity.
Qed.

Lemma configKey_returns_the_named_entry_witness :
  trace (app Fake.jwt Fake.bcrypt Fake.env Fake.azure GetConfigKey 9
             (Fake.key_request ("Bearer " +++ Fake.demo_token 5) "PromoBanner/Color"))
  = [EvGetSecret SECRET_NAME; EvNewClient Fake.CONNECTION;
     EvGetSetting (mkClient Fake.CONNECTION) "PromoBanner/Color"]
  /\ forall setting,
      getConfigurationSetting Fake.azure (mkClient Fake.CONNECTION) "PromoBanner/Color"
      = inr setting ->
      outcome (app Fake.jwt Fake.bcrypt Fake.env Fake.azure GetConfigKey 9
                   (Fake.key_request ("Bearer " +++ Fake.demo_token 5)
                                     "PromoBanner/Color"))
      = inr (res_json (JObj [("success", JBool true);
                             ("key", JStr (Setting.key setting));
                             ("value", JStr (Setting.value setting));
                             ("lastModified", JDate (Setting.lastModified setting))])).
Proof.
  apply (configKey_returns_the_named_entry Fake.jwt Fake.bcrypt Fake.env Fake.azure 9
           (Fake.key_request ("Bearer " +++ Fake.demo_token 5) "PromoBanner/Color")
           (mkClaims 1 "demo@ltimindtree.com" "Demo User" 5 86405)
           (mkSecret Fake.CONNECTION) (mkClient Fake.CONNECTION));
    vm_compute; reflexivity.
Defined.

(** ** C7: the secret and the client are rebuilt on every request *)

Lemma getAppConfigClient_from_scratch azure (A : Type)
      (k : Result Client * list Event -> Async A) :
  (forall r t, exists lookups,
      trace (k (r, t)) = t ++ lookups
      /\ forallb is_setting_event lookups = true
      /\ (forall error, r = inl error -> lookups = [])) ->
  from_scratch azure (trace (k (getAppConfigClient azure))).
Proof.
  intros Hk. unfold from_scratch.
  destruct (getAppConfigClient_cases azure)
    as [[e [Hsec ->]]|[[s [e [Hsec [Hcl ->]]]]|[s [client [Hsec [Hcl ->]]]]]];
    rewrite Hsec.
  - destruct (Hk (inl e) [EvGetSecret SECRET_NAME]) as [lookups [Ht [_ Hnil]]].
    rewrite (Hnil e eq_refl) in Ht. exists []. split; [exact Ht|reflexivity].
  - destruct (Hk (inl e) [EvGetSecret SECRET_NAME; EvNewClient (secret_value s)])
      as [lookups [Ht [_ Hnil]]].
    rewrite (Hnil e eq_refl) in Ht.
    exists [EvNewClient (secret_value s)]. split; [exact Ht|].
    exists []. split; reflexivity.
  - destruct (Hk (inr client) [EvGetSecret SECRET_NAME; EvNewClient (secret_value s)])
      as [lookups [Ht [Hall _]]].
    exists (EvNewClient (secret_value s) :: lookups). split; [exact Ht|].
    exists lookups. split; [reflexivity|exact Hall].
Qed.

Lemma config_from_scratch azure req : from_scratch azure (trace (config azure req)).
Proof.
  rewrite config_run.
  apply (getAppConfigClient_from_scratch azure _
           (fun m => match m with (inl error, t) => _ | (inr client, t) => _ end)).
  intros [error|client] t.
  - exists []. rewrite app_nil_r. repeat split.
  - settle_lookups.
Qed.

Lemma configKey_from_scratch azure req :
  from_scratch azure (trace (configKey azure req)).
Proof.
  rewrite configKey_run.
  apply (getAppConfigClient_from_scratch azure _
           (fun m => match m with (inl error, t) => _ | (inr client, t) => _ end)).
  intros [error|client] t.
  - exists []. rewrite app_nil_r. repeat split.
  - settle_lookups.
Qed.

Lemma legacy_from_scratch azure req : from_scratch azure (trace (legacy azure req)).
Proof.
  rewrite legacy_run.
  apply (getAppConfigClient_from_scratch azure _
           (fun m => match m with (inl error, t) => _ | (inr client, t) => _ end)).
  intros [error|client] t.
  - exists []. rewrite app_nil_r. repeat split.
  - settle_lookups.
Qed.

Lemma setting_events_hold_no_secret_lookup t :
  forallb is_setting_event t = true -> filter is_secret_lookup t = [].
Proof.
  induction t as [|e t IH]; [reflexivity|]. simpl. intro H.
  apply andb_true_iff in H as [He Ht]. destruct e; try discriminate He.
  simpl. auto.
Qed.

Lemma from_scratch_resolves_once azure t :
  from_scratch azure t -> secret_lookups t = 1%nat.
Proof.
  intros [rest [-> Hrest]]. unfold secret_lookups. simpl.
  f_equal.
  destruct (getSecret azure SECRET_NAME) as [e|s].
  - subst rest. reflexivity.
  - destruct Hrest as [lookups [-> Hall]]. simpl.
    now rewrite (setting_events_hold_no_secret_lookup _ Hall).
Qed.

Lemma login_trace jwt bcrypt env clock req :
  trace (login jwt bcrypt env clock req) = [].
Proof.
  unfold login.
  destruct (body_username req) as [username|]; [|reflexivity].
  destruct (body_password req) as [password|]; [|reflexivity].
  destruct (negb (truthy username) || negb (truthy password)); [reflexivity|].
  generalize (find (fun u => User.username u === username) users).
  intros [u|]; [|reflexivity].
  unfold lift, bind, try_catch, ret.
  destruct (compare bcrypt password (User.password u)) as [e|[|]]; reflexivity.
Qed.

(** What one request costs the secrets store. *)
Lemma secret_lookups_of_request jwt bcrypt env azure route clock req :
  secret_lookups (trace (app jwt bcrypt env azure route clock req))
  = if reaches_stores jwt env (azure, route, clock, req) then 1%nat else 0%nat.
Proof.
  unfold reaches_stores.
  destruct route; simpl; rewrite ?authenticateToken_session.
  - now rewrite login_trace.
  - now destruct (session jwt env clock req).
  - destruct (session jwt env clock req); [|reflexivity].
    apply (from_scratch_resolves_once azure), config_from_scratch.
  - destruct (session jwt env clock req); [|reflexivity].
    apply (from_scratch_resolves_once azure), configKey_from_scratch.
  - apply (from_scratch_resolves_once azure), legacy_from_scratch.
Qed.

Lemma secret_lookups_app t t' :
  secret_lookups (t ++ t') = (secret_lookups t + secret_lookups t')%nat.
Proof. unfold secret_lookups. now rewrite filter_app, length_app. Qed.

(** C7.  Every authenticated GET /api/config and GET /api/config/:key starts
    from scratch: its first upstream call resolves AppConfigConnectionString,
    its second builds a client from the value just resolved, and only then do
    settings lookups follow.  Nothing is kept between requests: over any run,
    the secret is resolved once for each request that reaches the stores. *)
Theorem secret_and_client_are_rebuilt_per_request
        jwt bcrypt env azure route clock req c run :
  route = GetConfig \/ route = GetConfigKey ->
  session jwt env clock req = Some c ->
  from_scratch azure (trace (app jwt bcrypt env azure route clock req))
  /\ secret_lookups (run_trace (serve jwt bcrypt env run))
     = length (filter (reaches_stores jwt env) run).
Proof.
  intros Hroute Hs. split.
  - destruct Hroute as [-> | ->].
    + rewrite (app_with_session _ _ _ _ GetConfig _ _ _ eq_refl Hs).
      apply config_from_scratch.
    + rewrite (app_with_session _ _ _ _ GetConfigKey _ _ _ eq_refl Hs).
      apply configKey_from_scratch.
  - clear. induction run as [|[[[azure route] clock] req] run IH]; [reflexivity|].
    unfold run_trace in *. cbn [serve map concat filter].
    rewrite secret_lookups_app, IH, secret_lookups_of_request.
    destruct (reaches_stores jwt env (azure, route, clock, req)); reflexivity.
Qed.

Lemma secret_and_client_are_rebuilt_per_request_witness :
  from_scratch Fake.azure
    (trace (app Fake.jwt Fake.bcrypt Fake.env Fake.azure GetConfig 9
                (Fake.with_header ("Bearer " +++ Fake.demo_token 5))))
  /\ secret_lookups
       (run_trace
          (serve Fake.jwt Fake.bcrypt Fake.env
             [(Fake.azure, GetConfig, 9,
               Fake.with_header ("Bearer " +++ Fake.demo_token 5));
              (Fake.azure, GetConfig, 10, Fake.empty_request);
              (Fake.azure_down, GetConfigKey, 11,
               Fake.key_request ("Bearer " +++ Fake.demo_token 5) "PromoBanner/Text");
              (Fake.azure, PostLogin, 12,
               Fake.login_request "demo@ltimindtree.com" "password123")]))
     = length
         (filter (reaches_stores Fake.jwt Fake.env)
            [(Fake.azure, GetConfig, 9,
              Fake.with_header ("Bearer " +++ Fake.demo_token 5));
             (Fake.azure, GetConfig, 10, Fake.empty_request);
             (Fake.azure_down, GetConfigKey, 11,
              Fake.key_request ("Bearer " +++ Fake.demo_token 5) "PromoBanner/Text");
             (Fake.azure, PostLogin, 12,
              Fake.login_request "demo@ltimindtree.com" "password123")]).
Proof.
  apply (secret_and_client_are_rebuilt_per_request
           Fake.jwt Fake.bcrypt Fake.env Fake.azure GetConfig 9
           (Fake.with_header ("Bearer " +++ Fake.demo_token 5))
           (mkClaims 1 "demo@ltimindtree.com" "Demo User" 5 86405)).
  - left. reflexivity.
  - vm_compute. reflexivity.
Defined.

(** Two requests in a row against the same stores: the secret is asked for
    twice and two clients are built. *)
Example two_requests_two_resolutions :
  run_trace
    (serve Fake.jwt Fake.bcrypt Fake.env
       [(Fake.azure, GetConfigKey, 9,
         Fake.key_request ("Bearer " +++ Fake.demo_token 5) "PromoBanner/Text");
        (Fake.azure, GetConfigKey, 10,
         Fake.key_request ("Bearer " +++ Fake.demo_token 5) "PromoBanner/Text")])
  = [EvGetSecret SECRET_NAME; EvNewClient Fake.CONNECTION;
     EvGetSetting (mkClient Fake.CONNECTION) "PromoBanner/Text";
     EvGetSecret SECRET_NAME; EvNewClient Fake.CONNECTION;
     EvGetSetting (mkClient Fake.CONNECTION) "PromoBanner/Text"].
Proof. vm_compute. reflexivity. Qed.

(** ** C8: which 500 answers carry the error text *)

(** C8 (amended).  Every 500 answer of GET /api/config and of
    GET /api/config/:key carries, as [details], the message of the error a
    store answered with, whatever the environment is; the catch-all error
    middleware carries it only when NODE_ENV is 'development', and the 500
    of login carries only the generic 'Internal server error'. *)
Theorem config_failures_carry_the_error_text
        jwt bcrypt env azure route clock req resp :
  route = GetConfig \/ route = GetConfigKey ->
  outcome (app jwt bcrypt env azure route clock req) = inr resp ->
  status resp = 500 ->
  (exists error,
      upstream_error azure error
      /\ body_field "details" resp = Some (JStr (message error)))
  /\ (forall error,
        status (errorMiddleware env error) = 500
        /\ body_field "details" (errorMiddleware env error)
           = if in_development env then Some (JStr (message error)) else None)
  /\ (forall bcrypt' clock' req' resp',
        outcome (login jwt bcrypt' env clock' req') = inr resp' ->
        status resp' = 500 ->
        body resp' = BJson (JObj [("error", JStr "Internal server error")])
        /\ body_field "details" resp' = None).
Proof.
  intros Hroute Ho H500. split; [|split].
  - assert (Hp : protected route = true) by (destruct Hroute; subst; reflexivity).
    destruct (session jwt env clock req) as [c|] eqn:Hs.
    + rewrite (app_with_session _ _ _ _ _ _ _ _ Hp Hs) in Ho.
      destruct Hroute as [-> | ->].
      * rewrite config_run in Ho.
        destruct (getAppConfigClient_cases azure)
          as [[e [Hsec E]]|[[s [e [Hsec [Hcl E]]]]|[s [client [Hsec [Hcl E]]]]]];
          rewrite E in Ho.
        -- inversion Ho; subst. exists e. split; [left; exact Hsec|reflexivity].
        -- inversion Ho; subst. exists e. split; [right; left; eauto|reflexivity].
        -- destruct (getConfigurationSetting azure client "PromoBanner/Text")
             as [e1|st] eqn:H1;
             [inversion Ho; subst; exists e1;
              split; [right; right; eauto|reflexivity]|].
           destruct (getConfigurationSetting azure client "PromoBanner/Color")
             as [e2|sc] eqn:H2;
             [inversion Ho; subst; exists e2;
              split; [right; right; eauto|reflexivity]|].
           destruct (getConfigurationSetting azure client "Feature/NewCheckout")
             as [e3|sf] eqn:H3;
             [inversion Ho; subst; exists e3;
              split; [right; right; eauto|reflexivity]|].
           inversion Ho; subst. discriminate H500.
      * rewrite configKey_run in Ho.
        destruct (getAppConfigClient_cases azure)
          as [[e [Hsec E]]|[[s [e [Hsec [Hcl E]]]]|[s [client [Hsec [Hcl E]]]]]];
          rewrite E in Ho.
        -- inversion Ho; subst. exists e. split; [left; exact Hsec|reflexivity].
        -- inversion Ho; subst. exists e. split; [right; left; eauto|reflexivity].
        -- destruct (getConfigurationSetting azure client
                       (params_key (set_user req c))) as [e1|st] eqn:H1;
             inversion Ho; subst;
             [exists e1; split; [right; right; eauto|reflexivity]
             |discriminate H500].
    + rewrite (app_without_session _ _ _ _ _ _ _ Hp Hs) in Ho.
      destruct (truthy_opt (bearer_token req)); inversion Ho; subst;
        discriminate H500.
  - intro error. split; [reflexivity|].
    unfold errorMiddleware, in_development.
    destruct (env_NODE_ENV env) as [v|]; [|reflexivity].
    destruct (v === "development"); reflexivity.
  - intros bcrypt' clock' req' resp' Hl Hst.
    destruct (login_cases jwt bcrypt' env clock' req') as [E|[E|[E|E]]];
      rewrite E in Hl; inversion Hl; subst resp';
      try discriminate Hst; split; reflexivity.
Qed.

Lemma config_failures_carry_the_error_text_witness :
  (exists error,
      upstream_error Fake.azure_down error
      /\ body_field "details"
           (res_status_json 500
              (failure_json "Failed to load configuration"
                 (mkExn "getaddrinfo ENOTFOUND honeywellvault.vault.azure.net")))
         = Some (JStr (message error)))
  /\ (forall error,
        status (errorMiddleware Fake.env_production error) = 500
        /\ body_field "details" (errorMiddleware Fake.env_production error)
           = if in_development Fake.env_production
             then Some (JStr (message error)) else None)
  /\ (forall bcrypt' clock' req' resp',
        outcome (login Fake.jwt bcrypt' Fake.env_production clock' req') = inr resp' ->
        status resp' = 500 ->
        body resp' = BJson (JObj [("error", JStr "Internal server error")])
        /\ body_field "details" resp' = None).
Proof.
  apply (config_failures_carry_the_error_text
           Fake.jwt Fake.bcrypt Fake.env_production Fake.azure_down GetConfig 9
           (Fake.with_header ("Bearer " +++ Fake.demo_token 5))).
  - left. reflexivity.
  - vm_compute. reflexivity.
  - reflexivity.
Defined.

(** C8 as stated fails: outside development the catch-all error middleware
    answers 500 without the error text, and so does login when the password
    check rejects. *)
Lemma some_500_answers_hide_the_error_text :
  (status (errorMiddleware Fake.env_production (mkExn "Unexpected token } in JSON")) = 500
   /\ body_field "details"
        (errorMiddleware Fake.env_production (mkExn "Unexpected token } in JSON"))
      = None)
  /\ (login Fake.jwt Fake.bcrypt_broken Fake.env 7
            (Fake.login_request "demo@ltimindtree.com" "password123")
      = (inr (res_status_json 500 (JObj [("error", JStr "Internal server error")])), [])
      /\ body_field "details"
           (res_status_json 500 (JObj [("error", JStr "Internal server error")]))
         = None).
Proof. repeat split. Qed.

(** ** C9: the legacy page is served without the gate *)

(** C9.  GET / runs no authentication check: whatever the request carries, it
    resolves the secret, builds the client, fetches PromoBanner/Text,
    PromoBanner/Color and Feature/NewCheckout and answers 200 with a page
    that holds the colour and the text as they are stored and the flag as
    Enabled or Disabled; these are the three values the gated GET /api/config
    returns to a caller with a session. *)
Theorem legacy_page_needs_no_token
        jwt bcrypt env azure clock req s client promoText promoColor flag :
  getSecret azure SECRET_NAME = inr s ->
  AppConfigurationClient azure (secret_value s) = inr client ->
  getConfigurationSetting azure client "PromoBanner/Text" = inr promoText ->
  getConfigurationSetting azure client "PromoBanner/Color" = inr promoColor ->
  getConfigurationSetting azure client "Feature/NewCheckout" = inr flag ->
  app jwt bcrypt env azure GetRoot clock req
  = (inr (res_send (legacy_page (Setting.value promoColor) (Setting.value promoText)
                                (Setting.value flag === "true"))),
     legacy_trace s client)
  /\ (forall clock' req',
        session jwt env clock' req' = None ->
        app jwt bcrypt env azure GetRoot clock' req'
        = app jwt bcrypt env azure GetRoot clock req)
  /\ legacy_page (Setting.value promoColor) (Setting.value promoText)
                 (Setting.value flag === "true")
     = page_head +++ Setting.value promoColor +++ page_style_tail
         +++ Setting.value promoText +++ page_body
         +++ (if Setting.value flag === "true" then ENABLED else DISABLED)
         +++ page_tail
  /\ forall clock' req' c,
      session jwt env clock' req' = Some c ->
      outcome (app jwt bcrypt env azure GetConfig clock' req')
      = inr (res_json (config_json promoText promoColor flag)).
Proof.
  intros Hsec Hcl Ht Hc Hf.
  assert (Hrun : forall r, legacy azure r
                 = (inr (res_send (legacy_page (Setting.value promoColor)
                                               (Setting.value promoText)
                                               (Setting.value flag === "true"))),
                    legacy_trace s client)).
  { intro r.
    rewrite legacy_run, (getAppConfigClient_ok _ _ _ Hsec Hcl), Ht, Hc, Hf.
    reflexivity. }
  split; [apply Hrun|].
  split; [intros clock' req' _; exact (eq_trans (Hrun _) (eq_sym (Hrun _)))|].
  split; [reflexivity|].
  intros clock' req' c Hs.
  rewrite (app_with_session _ _ _ _ GetConfig _ _ _ eq_refl Hs).
  rewrite config_run, (getAppConfigClient_ok _ _ _ Hsec Hcl), Ht, Hc, Hf.
  reflexivity.
Qed.

Lemma legacy_page_needs_no_token_witness :
  outcome (app Fake.jwt Fake.bcrypt Fake.env Fake.azure GetRoot 9 Fake.empty_request)
  = inr (res_send (legacy_page "blue" "Summer Sale - 50% Off!" true))
  /\ trace (app Fake.jwt Fake.bcrypt Fake.env Fake.azure GetRoot 9 Fake.empty_request)
     = legacy_trace (mkSecret Fake.CONNECTION) (mkClient Fake.CONNECTION).
Proof.
  destruct (legacy_page_needs_no_token
              Fake.jwt Fake.bcrypt Fake.env Fake.azure 9 Fake.empty_request
              (mkSecret Fake.CONNECTION) (mkClient Fake.CONNECTION)
              (Setting.mk "PromoBanner/Text" "Summer Sale - 50% Off!" 1700000000000)
              (Setting.mk "PromoBanner/Color" "blue" 1700000000001)
              (Setting.mk "Feature/NewCheckout" "true" 1700000000002)
              eq_refl eq_refl eq_refl eq_refl eq_refl) as [H _].
  rewrite H. split; reflexivity.
Defined.

(** * Further properties of the server *)

(** ** The Authorization header, word by word *)

Lemma split_at_space (a r : string) :
  no_space a = true -> split " " (a +++ String " " r) = a :: split " " r.
Proof.
  induction a as [|c a IH]; simpl; intro H.
  - reflexivity.
  - apply andb_true_iff in H as [Hc Ha].
    apply negb_true_iff in Hc. rewrite Hc, (IH Ha). reflexivity.
Qed.

Lemma truthy_append_space (a r : string) : truthy (a +++ String " " r) = true.
Proof. destruct a; reflexivity. Qed.

(** X1.  The gate never looks at the scheme word: whatever stands before the
    first space, and whatever follows a second one, the request is let
    through with the claims of the word in between when that word verifies. *)
Theorem gate_reads_only_the_second_word
        jwt env clock req scheme token tail c next :
  no_space scheme = true ->
  compact token = true ->
  authorization req = Some (scheme +++ " " +++ token)
  \/ authorization req = Some (scheme +++ " " +++ token +++ " " +++ tail) ->
  verify jwt token (JWT_SECRET env) clock = inr c ->
  authenticateToken jwt env clock req next = next (set_user req c).
Proof.
  intros Hs Hc Hh Hv.
  assert (Hb : bearer_token req = Some token).
  { apply andb_true_iff in Hc as [_ Hn]. unfold bearer_token.
    destruct Hh as [-> | ->].
    - change (scheme +++ " " +++ token) with (scheme +++ String " " token).
      rewrite truthy_append_space, (split_at_space _ _ Hs), (split_no_space _ Hn).
      reflexivity.
    - change (scheme +++ " " +++ token +++ " " +++ tail)
        with (scheme +++ String " " (token +++ String " " tail)).
      rewrite truthy_append_space, (split_at_space _ _ Hs), (split_at_space _ _ Hn).
      reflexivity. }
  rewrite authenticateToken_session. unfold session. rewrite Hb.
  apply andb_true_iff in Hc as [Ht _]. now rewrite Ht, Hv.
Qed.

Lemma gate_reads_only_the_second_word_witness :
  authenticateToken Fake.jwt Fake.env 9
    (Fake.with_header ("Basic " +++ Fake.demo_token 5 +++ " trailing words")) profile
  = profile (set_user
               (Fake.with_header ("Basic " +++ Fake.demo_token 5 +++ " trailing words"))
               (mkClaims 1 "demo@ltimindtree.com" "Demo User" 5 86405)).
Proof.
  apply (gate_reads_only_the_second_word Fake.jwt Fake.env 9
           (Fake.with_header ("Basic " +++ Fake.demo_token 5 +++ " trailing words"))
           "Basic" (Fake.demo_token 5) "trailing words").
  - reflexivity.
  - vm_compute. reflexivity.
  - right. reflexivity.
  - vm_compute. reflexivity.
Defined.

(** X2.  A header without a second word is answered 401 "Access token
    required" on every protected route, with no upstream call, whatever its
    first word is: a bare token sent without a scheme, or a scheme followed
    by two spaces, is treated as no token at all. *)
Theorem header_without_second_word_is_401
        jwt bcrypt env azure route clock req h :
  protected route = true ->
  authorization req = Some h ->
  no_space h = true
  \/ (exists scheme tail, h = scheme +++ "  " +++ tail /\ no_space scheme = true) ->
  app jwt bcrypt env azure route clock req = (inr access_token_required, []).
Proof.
  intros Hp Hh Hshape.
  assert (Hb : truthy_opt (bearer_token req) = false
               /\ session jwt env clock req = None).
  { unfold session, bearer_token. rewrite Hh.
    destruct Hshape as [Hn | [scheme [tail [-> Hs]]]].
    - destruct h as [|c h']; [split; reflexivity|].
      change (truthy (String c h')) with true. cbv iota.
      rewrite (split_no_space _ Hn). split; reflexivity.
    - change (scheme +++ "  " +++ tail) with (scheme +++ String " " (String " " tail)).
      rewrite truthy_append_space, (split_at_space _ _ Hs).
      simpl. destruct (split " " tail); split; reflexivity. }
  destruct Hb as [Hb Hs].
  rewrite (app_without_session _ _ _ _ _ _ _ Hp Hs), Hb. reflexivity.
Qed.

Lemma header_without_second_word_is_401_witness :
  app Fake.jwt Fake.bcrypt Fake.env Fake.azure GetConfig 9
      (Fake.with_header (Fake.demo_token 5))
  = (inr access_token_required, []).
Proof.
  apply (header_without_second_word_is_401 Fake.jwt Fake.bcrypt Fake.env Fake.azure
           GetConfig 9 (Fake.with_header (Fake.demo_token 5)) (Fake.demo_token 5)).
  - reflexivity.
  - reflexivity.
  - left. vm_compute. reflexivity.
Defined.

(** ** Login *)

(** X3.  Login never calls a store and has exactly four answers, given here
    whole: 400, 401 and 500 with one fixed error text each, and 200 with
    [success], the token and the user's id, username and name.  The token is
    signed from id, username and name only, and the stored password hash is
    no member name and no string value anywhere in the body outside the
    token. *)
Theorem login_stays_local_and_keeps_the_hash jwt bcrypt env clock req :
  exists resp,
    login jwt bcrypt env clock req = (inr resp, [])
    /\ (resp = mkResponse 400
                 (BJson (JObj [("error", JStr "Username and password required")]))
        \/ resp = mkResponse 401 (BJson (JObj [("error", JStr "Invalid credentials")]))
        \/ resp = mkResponse 500 (BJson (JObj [("error", JStr "Internal server error")]))
        \/ resp
           = mkResponse 200
               (BJson
                  (JObj [("success", JBool true);
                         ("token",
                          JStr (sign jwt
                                     (mkPayload 1 "demo@ltimindtree.com" "Demo User")
                                     (JWT_SECRET env) "24h" clock));
                         ("user",
                          JObj [("id", JNum 1);
                                ("username", JStr "demo@ltimindtree.com");
                                ("name", JStr "Demo User")])])))
    /\ (forall u j,
          In u users ->
          body resp = BJson j ->
          ~ In (User.password u) (strings_of (without "token" j))).
Proof.
  assert (Hhash : forall u, In u users ->
            User.password u
            = "$2b$10$rOzWbkQ9p5Fy8.QqZ6m7CeHPFZGVN1wR8PjHgF5nC2QxGkY7mKfO2").
  { intros u [E|[]]. now subst u. }
  destruct (login_cases jwt bcrypt env clock req) as [E|[E|[E|E]]];
    rewrite E; eexists; (split; [reflexivity|]); split.
  - now left.
  - intros u j Hin Hb. inversion Hb; subst j. rewrite (Hhash u Hin).
    cbn. intuition discriminate.
  - right; now left.
  - intros u j Hin Hb. inversion Hb; subst j. rewrite (Hhash u Hin).
    cbn. intuition discriminate.
  - right; right; now left.
  - intros u j Hin Hb. inversion Hb; subst j. rewrite (Hhash u Hin).
    cbn. intuition discriminate.
  - right; right; right. reflexivity.
  - intros u j Hin Hb. inversion Hb; subst j. rewrite (Hhash u Hin).
    cbn. intuition discriminate.
Qed.

(** ** Profile *)

(** X4.  Login followed by GET /api/auth/profile with the token just issued:
    before the expiry the profile answer is 200 with the token's payload, the
    demo user's id, username and name together with the issue instant and the
    expiry instant 24 hours later, and no store is called. *)
Theorem profile_echoes_the_token_payload
        jwt bcrypt env azure T t req resp token req' :
  JwtLaws jwt ->
  outcome (login jwt bcrypt env T req) = inr resp ->
  body_field "token" resp = Some (JStr token) ->
  authorization req' = Some ("Bearer " +++ token) ->
  t < T + DAY ->
  app jwt bcrypt env azure GetProfile t req'
  = (inr (res_json
            (JObj [("success", JBool true);
                   ("user",
                    JObj [("id", JNum 1);
                          ("username", JStr "demo@ltimindtree.com");
                          ("name", JStr "Demo User");
                          ("iat", JNum T);
                          ("exp", JNum (T + DAY))])])),
     []).
Proof.
  intros L Ho Hf Hh Hlt.
  destruct (login_token_inv _ _ _ _ _ _ _ Ho Hf) as [u [Hin ->]].
  assert (u = demo_user) by (destruct Hin as [E|[]]; now symmetry). subst u.
  pose proof (sign_compact _ L (payload_of demo_user) (JWT_SECRET env) "24h" T) as Hc.
  pose proof (verify_fresh _ L (payload_of demo_user) (JWT_SECRET env) "24h" DAY T t
                timespan_24h Hlt) as Hv.
  rewrite (app_with_session _ _ _ _ GetProfile _ _ _ eq_refl
             (session_of_header _ _ _ _ _ _ Hh Hc Hv)).
  reflexivity.
Qed.

Lemma profile_echoes_the_token_payload_witness :
  app Fake.jwt Fake.bcrypt Fake.env Fake.azure_down GetProfile 100
      (Fake.with_header ("Bearer " +++ Fake.demo_token 5))
  = (inr (res_json
            (JObj [("success", JBool true);
                   ("user",
                    JObj [("id", JNum 1);
                          ("username", JStr "demo@ltimindtree.com");
                          ("name", JStr "Demo User");
                          ("iat", JNum 5);
                          ("exp", JNum (5 + DAY))])])),
     []).
Proof.
  apply (profile_echoes_the_token_payload Fake.jwt Fake.bcrypt_yes Fake.env
           Fake.azure_down
           5 100 (Fake.login_request "demo@ltimindtree.com" "open sesame")
           (res_json (JObj [("success", JBool true);
                            ("token", JStr (Fake.demo_token 5));
                            ("user", user_json demo_user)]))
           (Fake.demo_token 5)
           (Fake.with_header ("Bearer " +++ Fake.demo_token 5))).
  - exact FakeFacts.jwt_laws.
  - vm_compute. reflexivity.
  - vm_compute. reflexivity.
  - reflexivity.
  - vm_compute. reflexivity.
Defined.

(** ** The order and the end of the settings lookups *)

Lemma until_failure_config_keys azure client :
  until_failure azure client CONFIG_KEYS
  = match getConfigurationSetting azure client "PromoBanner/Text" with
    | inl _ => ["PromoBanner/Text"]
    | inr _ =>
        match getConfigurationSetting azure client "PromoBanner/Color" with
        | inl _ => ["PromoBanner/Text"; "PromoBanner/Color"]
        | inr _ => ["PromoBanner/Text"; "PromoBanner/Color"; "Feature/NewCheckout"]
        end
    end.
Proof.
  unfold CONFIG_KEYS. cbn [until_failure].
  destruct (getConfigurationSetting azure client "PromoBanner/Text"); [reflexivity|].
  destruct (getConfigurationSetting azure client "PromoBanner/Color"); [reflexivity|].
  destruct (getConfigurationSetting azure client "Feature/NewCheckout"); reflexivity.
Qed.

(** X5.  Once the client is built, GET /api/config and GET / ask for
    PromoBanner/Text, PromoBanner/Color and Feature/NewCheckout in that order
    and stop at the first one the store refuses: the keys after it are never
    requested. *)
Theorem lookups_stop_at_the_first_failure
        jwt bcrypt env azure clock req c s client :
  session jwt env clock req = Some c ->
  getSecret azure SECRET_NAME = inr s ->
  AppConfigurationClient azure (secret_value s) = inr client ->
  trace (app jwt bcrypt env azure GetConfig clock req)
  = [EvGetSecret SECRET_NAME; EvNewClient (secret_value s)]
      ++ map (EvGetSetting client) (until_failure azure client CONFIG_KEYS)
  /\ trace (app jwt bcrypt env azure GetRoot clock req)
     = [EvGetSecret SECRET_NAME; EvNewClient (secret_value s)]
         ++ map (EvGetSetting client) (until_failure azure client CONFIG_KEYS).
Proof.
  intros Hs Hsec Hcl.
  rewrite (app_with_session _ _ _ _ GetConfig _ _ _ eq_refl Hs).
  change (app jwt bcrypt env azure GetRoot clock req) with (legacy azure req).
  rewrite config_run, legacy_run, (getAppConfigClient_ok _ _ _ Hsec Hcl).
  rewrite until_failure_config_keys.
  destruct (getConfigurationSetting azure client "PromoBanner/Text");
    [split; reflexivity|].
  destruct (getConfigurationSetting azure client "PromoBanner/Color");
    [split; reflexivity|].
  destruct (getConfigurationSetting azure client "Feature/NewCheckout");
    split; reflexivity.
Qed.

Lemma lookups_stop_at_the_first_failure_witness :
  trace (app Fake.jwt Fake.bcrypt Fake.env Fake.azure_no_color GetConfig 9
             (Fake.with_header ("Bearer " +++ Fake.demo_token 5)))
  = [EvGetSecret SECRET_NAME; EvNewClient Fake.CONNECTION;
     EvGetSetting (mkClient Fake.CONNECTION) "PromoBanner/Text";
     EvGetSetting (mkClient Fake.CONNECTION) "PromoBanner/Color"]
  /\ trace (app Fake.jwt Fake.bcrypt Fake.env Fake.azure_no_color GetRoot 9
                (Fake.with_header ("Bearer " +++ Fake.demo_token 5)))
     = [EvGetSecret SECRET_NAME; EvNewClient Fake.CONNECTION;
        EvGetSetting (mkClient Fake.CONNECTION) "PromoBanner/Text";
        EvGetSetting (mkClient Fake.CONNECTION) "PromoBanner/Color"].
Proof.
  apply (lookups_stop_at_the_first_failure Fake.jwt Fake.bcrypt Fake.env
           Fake.azure_no_color 9 (Fake.with_header ("Bearer " +++ Fake.demo_token 5))
           (mkClaims 1 "demo@ltimindtree.com" "Demo User" 5 86405)
           (mkSecret Fake.CONNECTION) (mkClient Fake.CONNECTION));
    vm_compute; reflexivity.
Defined.

(** X6.  When the client cannot be built, no setting is ever asked for: a
    vault that refuses the secret costs exactly one upstream call, a
    connection string the client constructor refuses costs two, and both
    configuration routes answer 500 with that very error's message. *)
Theorem no_lookup_without_a_client
        jwt bcrypt env azure route clock req c error :
  route = GetConfig \/ route = GetConfigKey ->
  session jwt env clock req = Some c ->
  getSecret azure SECRET_NAME = inl error
  \/ (exists s, getSecret azure SECRET_NAME = inr s
                /\ AppConfigurationClient azure (secret_value s) = inl error) ->
  exists resp,
    outcome (app jwt bcrypt env azure route clock req) = inr resp
    /\ status resp = 500
    /\ body_field "details" resp = Some (JStr (message error))
    /\ trace (app jwt bcrypt env azure route clock req)
       = match getSecret azure SECRET_NAME with
         | inl _ => [EvGetSecret SECRET_NAME]
         | inr s => [EvGetSecret SECRET_NAME; EvNewClient (secret_value s)]
         end.
Proof.
  intros Hroute Hs Hfail.
  assert (Hclient : getAppConfigClient azure
                    = (inl error,
                       match getSecret azure SECRET_NAME with
                       | inl _ => [EvGetSecret SECRET_NAME]
                       | inr s => [EvGetSecret SECRET_NAME; EvNewClient (secret_value s)]
                       end)).
  { unfold getAppConfigClient, await_getSecret, new_AppConfigurationClient,
      try_catch, bind, throw.
    destruct Hfail as [Hsec | [s [Hsec Hcl]]]; rewrite Hsec; simpl;
      [reflexivity | rewrite Hcl; reflexivity]. }
  destruct Hroute as [-> | ->].
  - rewrite (app_with_session _ _ _ _ GetConfig _ _ _ eq_refl Hs).
    rewrite config_run, Hclient. eexists. repeat split.
  - rewrite (app_with_session _ _ _ _ GetConfigKey _ _ _ eq_refl Hs).
    rewrite configKey_run, Hclient. eexists. repeat split.
Qed.

Lemma no_lookup_without_a_client_witness :
  exists resp,
    outcome (app Fake.jwt Fake.bcrypt Fake.env Fake.azure_down GetConfigKey 9
                 (Fake.key_request ("Bearer " +++ Fake.demo_token 5) "PromoBanner/Text"))
    = inr resp
    /\ status resp = 500
    /\ body_field "details" resp
       = Some (JStr (message
                       (mkExn "getaddrinfo ENOTFOUND honeywellvault.vault.azure.net")))
    /\ trace (app Fake.jwt Fake.bcrypt Fake.env Fake.azure_down GetConfigKey 9
                  (Fake.key_request ("Bearer " +++ Fake.demo_token 5)
                                    "PromoBanner/Text"))
       = match getSecret Fake.azure_down SECRET_NAME with
         | inl _ => [EvGetSecret SECRET_NAME]
         | inr s => [EvGetSecret SECRET_NAME; EvNewClient (secret_value s)]
         end.
Proof.
  apply (no_lookup_without_a_client Fake.jwt Fake.bcrypt Fake.env Fake.azure_down
           GetConfigKey 9
           (Fake.key_request ("Bearer " +++ Fake.demo_token 5) "PromoBanner/Text")
           (mkClaims 1 "demo@ltimindtree.com" "Demo User" 5 86405)
           (mkExn "getaddrinfo ENOTFOUND honeywellvault.vault.azure.net")).
  - right. reflexivity.
  - vm_compute. reflexivity.
  - left. reflexivity.
Defined.

(** ** The legacy page when a store fails *)


(** X8.  GET /api/config behind the gate and GET / in front of it are the
    same read of the stores: they make the same upstream calls, and either
    both fail on the same error (500 with its message here, the error page
    with its message there) or both show the same three settings. *)
Theorem config_and_legacy_agree jwt bcrypt env azure clock req c :
  session jwt env clock req = Some c ->
  trace (app jwt bcrypt env azure GetConfig clock req)
  = trace (app jwt bcrypt env azure GetRoot clock req)
  /\ ((exists error,
          outcome (app jwt bcrypt env azure GetConfig clock req)
          = inr (res_status_json 500 (failure_json "Failed to load configuration" error))
          /\ outcome (app jwt bcrypt env azure GetRoot clock req)
             = inr (res_send (legacy_error_page (message error))))
      \/ (exists promoText promoColor flag,
             outcome (app jwt bcrypt env azure GetConfig clock req)
             = inr (res_json (config_json promoText promoColor flag))
             /\ outcome (app jwt bcrypt env azure GetRoot clock req)
                = inr (res_send (legacy_page (Setting.value promoColor)
                                             (Setting.value promoText)
                                             (Setting.value flag === "true"))))).
Proof.
  intros Hs.
  rewrite (app_with_session _ _ _ _ GetConfig _ _ _ eq_refl Hs).
  change (app jwt bcrypt env azure GetRoot clock req) with (legacy azure req).
  rewrite config_run, legacy_run.
  destruct (getAppConfigClient azure) as [[e|client] t].
  - split; [reflexivity|]. left. exists e. split; reflexivity.
  - destruct (getConfigurationSetting azure client "PromoBanner/Text") as [e1|st];
      [split; [reflexivity|]; left; exists e1; split; reflexivity|].
    destruct (getConfigurationSetting azure client "PromoBanner/Color") as [e2|sc];
      [split; [reflexivity|]; left; exists e2; split; reflexivity|].
    destruct (getConfigurationSetting azure client "Feature/NewCheckout") as [e3|sf];
      [split; [reflexivity|]; left; exists e3; split; reflexivity|].
    split; [reflexivity|]. right. exists st, sc, sf. split; reflexivity.
Qed.

Lemma config_and_legacy_agree_witness :
  trace (app Fake.jwt Fake.bcrypt Fake.env Fake.azure_no_color GetConfig 9
             (Fake.with_header ("Bearer " +++ Fake.demo_token 5)))
  = trace (app Fake.jwt Fake.bcrypt Fake.env Fake.azure_no_color GetRoot 9
               (Fake.with_header ("Bearer " +++ Fake.demo_token 5))).
Proof.
  apply (config_and_legacy_agree Fake.jwt Fake.bcrypt Fake.env Fake.azure_no_color 9
           (Fake.with_header ("Bearer " +++ Fake.demo_token 5))
           (mkClaims 1 "demo@ltimindtree.com" "Demo User" 5 86405)).
  vm_compute. reflexivity.
Defined.

(** * Properties of the client *)

(** ** [localStorage] and plain objects *)

Module StorageFacts.
Import Storage.

Lemma get_remove_same k s : getItem k (removeItem k s) = None.
Proof.
  induction s as [|[k' v] r IH]; [reflexivity|]. simpl.
  destruct (String.eqb k' k) eqn:E; [exact IH|]. simpl. now rewrite E.
Qed.

Lemma get_remove_other k k' s :
  k <> k' -> getItem k (removeItem k' s) = getItem k s.
Proof.
  intro Hne. induction s as [|[k0 v] r IH]; [reflexivity|]. simpl.
  destruct (String.eqb_spec k0 k') as [E'|E'].
  - subst k0. destruct (String.eqb_spec k' k) as [E|E]; [congruence|exact IH].
  - simpl. now rewrite IH.
Qed.

Lemma get_set_same k v s : getItem k (setItem k v s) = Some v.
Proof. unfold setItem. simpl. now rewrite String.eqb_refl. Qed.

Lemma get_set_other k k' v s :
  k <> k' -> getItem k (setItem k' v s) = getItem k s.
Proof.
  intro Hne. unfold setItem. simpl.
  destruct (String.eqb_spec k' k) as [E|E]; [congruence|].
  now apply get_remove_other.
Qed.

End StorageFacts.

Module ObjFacts.
Import Obj.

Lemma get_after_set k v o : get k (set k v o) = Some v.
Proof.
  induction o as [|[k' v'] r IH]; simpl.
  - now rewrite String.eqb_refl.
  - destruct (String.eqb k' k) eqn:E; simpl; [now rewrite String.eqb_refl|].
    now rewrite E.
Qed.

Lemma get_after_set_other k k' v o : k <> k' -> get k (set k' v o) = get k o.
Proof.
  intro Hne. induction o as [|[k0 v0] r IH]; simpl.
  - destruct (String.eqb_spec k' k); [congruence|reflexivity].
  - destruct (String.eqb_spec k0 k') as [E'|E']; simpl.
    + subst k0. destruct (String.eqb_spec k' k); [congruence|reflexivity].
    + now rewrite IH.
Qed.

(** Setting a key an object has keeps the keys and their order. *)
Lemma keys_set_present k v o :
  get k o <> None -> map fst (set k v o) = map fst o.
Proof.
  induction o as [|[k0 v0] r IH]; simpl; [congruence|].
  destruct (String.eqb_spec k0 k) as [E|E]; simpl.
  - now subst.
  - intro H. now rewrite IH.
Qed.

End ObjFacts.

(** ** One axios call *)

Lemma axios_reply transport b m url data code d :
  transport m url (request_interceptor b) data = Reply code d ->
  axios transport b m url data
  = if is_2xx code then (Resolved d, b)
    else (Rejected (Some (code, d)), response_interceptor b (Some (code, d))).
Proof. intro H. unfold axios. now rewrite H. Qed.

Lemma server_login jwt bcrypt env azure clock elsewhere authorization credentials :
  server jwt bcrypt env azure clock elsewhere POST "/api/auth/login" authorization
         (Some credentials)
  = reply_of (login jwt bcrypt env clock
                    (mkRequest authorization (Some (cred_username credentials))
                               (Some (cred_password credentials)) "" None)).
Proof. reflexivity. Qed.

Lemma server_profile jwt bcrypt env azure clock elsewhere authorization :
  server jwt bcrypt env azure clock elsewhere GET "/api/auth/profile" authorization None
  = reply_of (app jwt bcrypt env azure GetProfile clock
                  (mkRequest authorization None None "" None)).
Proof. reflexivity. Qed.

Lemma server_config jwt bcrypt env azure clock elsewhere authorization :
  server jwt bcrypt env azure clock elsewhere GET "/api/config" authorization None
  = reply_of (app jwt bcrypt env azure GetConfig clock
                  (mkRequest authorization None None "" None)).
Proof. reflexivity. Qed.

Lemma stored_token_header b token :
  Storage.getItem "token" (localStorage b) = Some token ->
  truthy token = true ->
  request_interceptor b = Some ("Bearer " +++ token).
Proof. intros Hg Ht. unfold request_interceptor. now rewrite Hg, Ht. Qed.

Lemma session_of_stored_token jwt env clock b token c :
  Storage.getItem "token" (localStorage b) = Some token ->
  compact token = true ->
  verify jwt token (JWT_SECRET env) clock = inr c ->
  session jwt env clock (request_from b) = Some c.
Proof.
  intros Hg Hc Hv.
  apply (session_of_header _ _ _ _ token); [|exact Hc|exact Hv].
  apply andb_true_iff in Hc as [Ht _].
  exact (stored_token_header _ _ Hg Ht).
Qed.

(** ** The token between client and server *)

Lemma gate_word_of_stored_token b token :
  Storage.getItem "token" (localStorage b) = Some token ->
  truthy token = true ->
  bearer_token (request_from b) = hd_error (split " " token).
Proof.
  intros Hg Ht.
  unfold bearer_token, request_from. cbn [authorization].
  rewrite (stored_token_header _ _ Hg Ht).
  change ("Bearer " +++ token) with ("Bearer" +++ String " " token).
  rewrite truthy_append_space, (split_at_space "Bearer" token eq_refl).
  destruct (split " " token); reflexivity.
Qed.

(** X9.  The header the request interceptor builds from the stored token is
    read back by the gate as the token's first space-free word: a token
    without spaces arrives whole, a token with a space arrives cut at it. *)
Theorem stored_token_reaches_the_gate b token :
  Storage.getItem "token" (localStorage b) = Some token ->
  truthy token = true ->
  bearer_token (request_from b) = hd_error (split " " token)
  /\ (no_space token = true -> bearer_token (request_from b) = Some token).
Proof.
  intros Hg Ht.
  pose proof (gate_word_of_stored_token b token Hg Ht) as Hb.
  split; [exact Hb|].
  intro Hn. rewrite Hb, (split_no_space _ Hn). reflexivity.
Qed.

Lemma stored_token_reaches_the_gate_witness :
  bearer_token (request_from (mkBrowser [("token", "abc def")] "/dashboard"))
  = hd_error (split " " "abc def")
  /\ (no_space "abc def" = true ->
      bearer_token (request_from (mkBrowser [("token", "abc def")] "/dashboard"))
      = Some "abc def").
Proof.
  apply (stored_token_reaches_the_gate
           (mkBrowser [("token", "abc def")] "/dashboard") "abc def");
    reflexivity.
Defined.

Lemma axios_resolved transport b m url data response :
  fst (axios transport b m url data) = Resolved response ->
  axios transport b m url data = (Resolved response, b).
Proof.
  unfold axios. destruct (transport m url (request_interceptor b) data) as [e|code d].
  - discriminate.
  - destruct ((200 <=? code)%Z && (code <? 300)%Z)%bool; [|discriminate].
    cbn. now intros [= ->].
Qed.

(** X10.  What the client does with the answer to a login request that
    resolves.  If [success] is truthy, [login] reports success, stores
    String(token) under 'token' and the stringified user under 'user' (the
    word 'undefined' for a member that is missing), sets the user, and
    leaves every other key and the location alone; from then on the request
    interceptor sends 'Bearer ' followed by the stored token, which is
    'Bearer undefined' when the answer held no token.  If [success] is not
    truthy, [login] reports 'Login failed' and changes nothing. *)
Theorem login_reply_is_stored_and_sent_back
        toISOString JSON_stringify api transport b s credentials response :
  fst (apiService_login api transport b credentials) = Resolved response ->
  (js_truthy toISOString (member "success" response) = true ->
   exists b',
     AuthProvider_login toISOString JSON_stringify api transport b s credentials
     = (mkLoginResult true None, b',
        mkAuthState (member "user" response) (auth_loading s))
     /\ Storage.getItem "token" (localStorage b')
        = Some (js_String toISOString (member "token" response))
     /\ Storage.getItem "user" (localStorage b')
        = Some (match member "user" response with
                | Some u => JSON_stringify u
                | None => "undefined"
                end)
     /\ (forall k, k <> "token" -> k <> "user" ->
           Storage.getItem k (localStorage b') = Storage.getItem k (localStorage b))
     /\ location_href b' = location_href b
     /\ (js_String toISOString (member "token" response) <> "" ->
         request_interceptor b'
         = Some ("Bearer " +++ js_String toISOString (member "token" response)))
     /\ (member "token" response = None ->
         request_interceptor b' = Some "Bearer undefined"))
  /\ (js_truthy toISOString (member "success" response) = false ->
      AuthProvider_login toISOString JSON_stringify api transport b s credentials
      = (mkLoginResult false (Some (JStr "Login failed")), b, s)).
Proof.
  intro Hr. unfold apiService_login in Hr. apply axios_resolved in Hr.
  unfold AuthProvider_login, apiService_login. rewrite Hr.
  split; intro Hok; rewrite Hok; [|reflexivity].
  eexists. split; [reflexivity|]. cbn [localStorage location_href].
  assert (Hg : forall v u,
             Storage.getItem "token"
               (Storage.setItem "user" u (Storage.setItem "token" v (localStorage b)))
             = Some v).
  { intros v u. rewrite StorageFacts.get_set_other by discriminate.
    apply StorageFacts.get_set_same. }
  split; [apply Hg|].
  split; [apply StorageFacts.get_set_same|].
  split.
  { intros k Hk1 Hk2. now rewrite !StorageFacts.get_set_other by congruence. }
  split; [reflexivity|].
  split.
  - intro Hne. apply stored_token_header; [apply Hg|].
    destruct (js_String toISOString (member "token" response));
      [congruence|reflexivity].
  - intro Hnone. rewrite Hnone. apply stored_token_header; [apply Hg|reflexivity].
Qed.

Lemma login_reply_is_stored_and_sent_back_witness :
  (exists b',
      AuthProvider_login FakeBrowser.toISOString FakeBrowser.stringify None
        FakeBrowser.welcoming FakeBrowser.fresh initial_auth
        FakeBrowser.wrong_credentials
      = (mkLoginResult true None, b',
         mkAuthState (Some (JObj [("name", JStr "Demo User")])) true)
      /\ Storage.getItem "user" (localStorage b') = Some "Demo User"
      /\ request_interceptor b' = Some "Bearer header.payload.signature")
  /\ (exists b',
        AuthProvider_login FakeBrowser.toISOString FakeBrowser.stringify None
          FakeBrowser.forgetful FakeBrowser.fresh initial_auth
          FakeBrowser.wrong_credentials
        = (mkLoginResult true None, b', mkAuthState None true)
        /\ Storage.getItem "user" (localStorage b') = Some "undefined"
        /\ request_interceptor b' = Some "Bearer undefined").
Proof.
  split.
  - destruct (login_reply_is_stored_and_sent_back
                FakeBrowser.toISOString FakeBrowser.stringify None
                FakeBrowser.welcoming FakeBrowser.fresh initial_auth
                FakeBrowser.wrong_credentials
                (BJson (JObj [("success", JBool true);
                              ("token", JStr "header.payload.signature");
                              ("user", JObj [("name", JStr "Demo User")])]))
                eq_refl) as [Hyes _].
    destruct (Hyes eq_refl) as [b' [Hrun [_ [Huser [_ [_ [Hsent _]]]]]]].
    exists b'. split; [exact Hrun|]. split; [exact Huser|].
    apply Hsent. discriminate.
  - destruct (login_reply_is_stored_and_sent_back
                FakeBrowser.toISOString FakeBrowser.stringify None
                FakeBrowser.forgetful FakeBrowser.fresh initial_auth
                FakeBrowser.wrong_credentials
                (BJson (JObj [("success", JBool true)]))
                eq_refl) as [Hyes _].
    destruct (Hyes eq_refl) as [b' [Hrun [_ [Huser [_ [_ [_ Hundef]]]]]]].
    exists b'. split; [exact Hrun|]. split; [exact Huser|].
    apply Hundef. reflexivity.
Defined.

(** X11.  Submitting the login form with a non-empty name and password the
    server does not accept: the form shows the server's "Invalid credentials",
    stops loading, and, because the answer is a 401, the response interceptor
    has thrown away whatever token and user the browser held and pointed the
    page at /login. *)
Theorem failed_submit_shows_the_error_and_clears_the_session
        toISOString JSON_stringify jwt bcrypt env azure T elsewhere b s f :
  cred_username (login_credentials f) <> "" ->
  cred_password (login_credentials f) <> "" ->
  (find (fun u => User.username u === cred_username (login_credentials f)) users = None
   \/ exists u,
       find (fun u => User.username u === cred_username (login_credentials f)) users
       = Some u
       /\ compare bcrypt (cred_password (login_credentials f)) (User.password u)
          = inr false) ->
  exists b',
    Login_handleSubmit toISOString JSON_stringify None
      (server jwt bcrypt env azure T elsewhere) b s f
    = (b', s,
       mkLoginState (login_credentials f) (Some (JStr "Invalid credentials")) false)
    /\ Storage.getItem "token" (localStorage b') = None
    /\ Storage.getItem "user" (localStorage b') = None
    /\ request_interceptor b' = None
    /\ location_href b' = "/login".
Proof.
  intros Hu Hp Hmiss.
  assert (Htu : truthy (cred_username (login_credentials f)) = true)
    by (destruct (cred_username (login_credentials f)); [congruence|reflexivity]).
  assert (Htp : truthy (cred_password (login_credentials f)) = true)
    by (destruct (cred_password (login_credentials f)); [congruence|reflexivity]).
  exists (mkBrowser (Storage.removeItem "user"
                       (Storage.removeItem "token" (localStorage b))) "/login").
  split.
  - unfold Login_handleSubmit, AuthProvider_login, apiService_login.
    change (API_BASE None +++ "/auth/login") with "/api/auth/login".
    unfold axios. rewrite server_login.
    rewrite (login_run jwt bcrypt env T
               (mkRequest (request_interceptor b)
                          (Some (cred_username (login_credentials f)))
                          (Some (cred_password (login_credentials f))) "" None)
               _ _ eq_refl eq_refl Htu Htp).
    destruct Hmiss as [Hnone | [u [Hsome Hcmp]]].
    + rewrite Hnone. reflexivity.
    + rewrite Hsome, Hcmp. reflexivity.
  - cbn [localStorage location_href]. repeat split.
    + rewrite StorageFacts.get_remove_other by discriminate.
      apply StorageFacts.get_remove_same.
    + apply StorageFacts.get_remove_same.
    + unfold request_interceptor. cbn [localStorage].
      rewrite StorageFacts.get_remove_other by discriminate.
      now rewrite StorageFacts.get_remove_same.
Qed.

Lemma failed_submit_shows_the_error_and_clears_the_session_witness :
  exists b',
    Login_handleSubmit FakeBrowser.toISOString FakeBrowser.stringify None
      (server Fake.jwt Fake.bcrypt Fake.env Fake.azure 9 FakeBrowser.nowhere)
      (FakeBrowser.signed_in (Fake.demo_token 5)) initial_auth
      (mkLoginState FakeBrowser.wrong_credentials (Some (JStr "")) false)
    = (b', initial_auth,
       mkLoginState FakeBrowser.wrong_credentials
                    (Some (JStr "Invalid credentials")) false)
    /\ Storage.getItem "token" (localStorage b') = None
    /\ Storage.getItem "user" (localStorage b') = None
    /\ request_interceptor b' = None
    /\ location_href b' = "/login".
Proof.
  apply (failed_submit_shows_the_error_and_clears_the_session
           FakeBrowser.toISOString FakeBrowser.stringify
           Fake.jwt Fake.bcrypt Fake.env Fake.azure 9 FakeBrowser.nowhere
           (FakeBrowser.signed_in (Fake.demo_token 5)) initial_auth
           (mkLoginState FakeBrowser.wrong_credentials (Some (JStr "")) false)).
  - discriminate.
  - discriminate.
  - right. eexists. split; reflexivity.
Defined.

(** ** The dashboard *)

Lemma loadConfig_over_server toISOString jwt bcrypt env azure clock elsewhere b d resp :
  outcome (app jwt bcrypt env azure GetConfig clock (request_from b)) = inr resp ->
  Dashboard_loadConfig toISOString None (server jwt bcrypt env azure clock elsewhere) b d
  = if is_2xx (status resp) then
      if js_truthy toISOString (member "success" (body resp)) then
        (b, mkDashboardState (member "config" (body resp)) false (dash_error d))
      else (b, mkDashboardState (dash_config d) false
                                (JStr "Failed to load configuration"))
    else
      (response_interceptor b (Some (status resp, body resp)),
       mkDashboardState (dash_config d) false
         (error_text toISOString (Some (status resp, body resp))
                     "Failed to load configuration")).
Proof.
  intro Ho. unfold Dashboard_loadConfig, apiService_getConfig.
  change (API_BASE None +++ "/config") with "/api/config".
  rewrite (axios_reply _ b GET "/api/config" None (status resp) (body resp)).
  - destruct (is_2xx (status resp)); reflexivity.
  - rewrite server_config. unfold reply_of.
    change (mkRequest (request_interceptor b) None None "" None) with (request_from b).
    now rewrite Ho.
Qed.

(** X12.  A stored token that the server refuses to verify (expired, or not
    signed with its key) is not removed by the client: the dashboard's
    request is answered 403, the response interceptor reacts to 401 only, so
    the browser is left exactly as it was, token included, and the dashboard
    shows "Invalid or expired token". *)
Theorem refused_token_stays_in_the_browser
        toISOString jwt bcrypt env azure clock elsewhere b d token err :
  Storage.getItem "token" (localStorage b) = Some token ->
  compact token = true ->
  verify jwt token (JWT_SECRET env) clock = inl err ->
  Dashboard_loadConfig toISOString None (server jwt bcrypt env azure clock elsewhere) b d
  = (b, mkDashboardState (dash_config d) false (JStr "Invalid or expired token"))
  /\ Dashboard_view toISOString
       (snd (Dashboard_loadConfig toISOString None
               (server jwt bcrypt env azure clock elsewhere) b d))
     = DashError (JStr "Invalid or expired token").
Proof.
  intros Hg Hc Hv.
  assert (Hb : bearer_token (request_from b) = Some token).
  { apply andb_true_iff in Hc as [Ht Hn].
    rewrite (gate_word_of_stored_token b token Hg Ht), (split_no_space _ Hn).
    reflexivity. }
  assert (Hs : session jwt env clock (request_from b) = None).
  { unfold session. rewrite Hb. apply andb_true_iff in Hc as [Ht _].
    now rewrite Ht, Hv. }
  assert (Hrun : Dashboard_loadConfig toISOString None
                   (server jwt bcrypt env azure clock elsewhere) b d
                 = (b, mkDashboardState (dash_config d) false
                                        (JStr "Invalid or expired token"))).
  { rewrite (loadConfig_over_server _ _ _ _ _ _ _ _ _ invalid_or_expired).
    - reflexivity.
    - rewrite (app_without_session _ _ _ _ GetConfig _ _ eq_refl Hs), Hb.
      apply andb_true_iff in Hc as [Ht _]. simpl. now rewrite Ht. }
  split; [exact Hrun|]. rewrite Hrun. reflexivity.
Qed.

Lemma refused_token_stays_in_the_browser_witness :
  Dashboard_loadConfig FakeBrowser.toISOString None
    (server Fake.jwt Fake.bcrypt Fake.env Fake.azure 86405 FakeBrowser.nowhere)
    (FakeBrowser.signed_in (Fake.demo_token 5)) initial_dashboard
  = (FakeBrowser.signed_in (Fake.demo_token 5),
     mkDashboardState (dash_config initial_dashboard) false
                      (JStr "Invalid or expired token"))
  /\ Dashboard_view FakeBrowser.toISOString
       (snd (Dashboard_loadConfig FakeBrowser.toISOString None
               (server Fake.jwt Fake.bcrypt Fake.env Fake.azure 86405 FakeBrowser.nowhere)
               (FakeBrowser.signed_in (Fake.demo_token 5)) initial_dashboard))
     = DashError (JStr "Invalid or expired token").
Proof.
  apply (refused_token_stays_in_the_browser FakeBrowser.toISOString
           Fake.jwt Fake.bcrypt Fake.env Fake.azure 86405 FakeBrowser.nowhere
           (FakeBrowser.signed_in (Fake.demo_token 5)) initial_dashboard
           (Fake.demo_token 5) (mkExn "jwt expired"));
    vm_compute; reflexivity.
Defined.

(** X13.  A browser that holds no token, or an empty one, sends no
    Authorization header; the dashboard's request is answered 401, and the
    response interceptor then removes the stored user as well and points the
    page at /login, while the dashboard shows "Access token required". *)
Theorem missing_token_sends_the_page_to_login
        toISOString jwt bcrypt env azure clock elsewhere b d :
  Storage.getItem "token" (localStorage b) = None
  \/ Storage.getItem "token" (localStorage b) = Some "" ->
  exists b',
    Dashboard_loadConfig toISOString None (server jwt bcrypt env azure clock elsewhere) b d
    = (b', mkDashboardState (dash_config d) false (JStr "Access token required"))
    /\ request_interceptor b = None
    /\ Storage.getItem "user" (localStorage b') = None
    /\ Storage.getItem "token" (localStorage b') = None
    /\ location_href b' = "/login".
Proof.
  intros Hg.
  assert (Hh : request_interceptor b = None).
  { unfold request_interceptor. destruct Hg as [-> | ->]; reflexivity. }
  assert (Hs : session jwt env clock (request_from b) = None).
  { unfold session, bearer_token, request_from. cbn [authorization].
    now rewrite Hh. }
  exists (mkBrowser (Storage.removeItem "user"
                       (Storage.removeItem "token" (localStorage b))) "/login").
  split.
  - rewrite (loadConfig_over_server _ _ _ _ _ _ _ _ _ access_token_required).
    + reflexivity.
    + rewrite (app_without_session _ _ _ _ GetConfig _ _ eq_refl Hs).
      unfold bearer_token, request_from. cbn [authorization]. now rewrite Hh.
  - split; [exact Hh|]. cbn [localStorage location_href]. repeat split.
    + apply StorageFacts.get_remove_same.
    + rewrite StorageFacts.get_remove_other by discriminate.
      apply StorageFacts.get_remove_same.
Qed.

Lemma missing_token_sends_the_page_to_login_witness :
  exists b',
    Dashboard_loadConfig FakeBrowser.toISOString None
      (server Fake.jwt Fake.bcrypt Fake.env Fake.azure 9 FakeBrowser.nowhere)
      (mkBrowser [("user", "Demo User")] "/dashboard") initial_dashboard
    = (b', mkDashboardState (dash_config initial_dashboard) false
                            (JStr "Access token required"))
    /\ request_interceptor (mkBrowser [("user", "Demo User")] "/dashboard") = None
    /\ Storage.getItem "user" (localStorage b') = None
    /\ Storage.getItem "token" (localStorage b') = None
    /\ location_href b' = "/login".
Proof.
  apply (missing_token_sends_the_page_to_login FakeBrowser.toISOString
           Fake.jwt Fake.bcrypt Fake.env Fake.azure 9 FakeBrowser.nowhere
           (mkBrowser [("user", "Demo User")] "/dashboard") initial_dashboard).
  left. reflexivity.
Defined.

(** X14.  From the stores to the screen: a signed-in browser whose dashboard
    has no error loads the configuration and then shows the banner in the
    stored colour with the stored text, and shows the feature flag as
    enabled exactly when the stored value is the string "true". *)
Theorem dashboard_shows_what_is_stored
        toISOString jwt bcrypt env azure clock elsewhere b d token c
        s client promoText promoColor flag :
  Storage.getItem "token" (localStorage b) = Some token ->
  compact token = true ->
  verify jwt token (JWT_SECRET env) clock = inr c ->
  getSecret azure SECRET_NAME = inr s ->
  AppConfigurationClient azure (secret_value s) = inr client ->
  getConfigurationSetting azure client "PromoBanner/Text" = inr promoText ->
  getConfigurationSetting azure client "PromoBanner/Color" = inr promoColor ->
  getConfigurationSetting azure client "Feature/NewCheckout" = inr flag ->
  dash_error d = JStr "" ->
  Dashboard_view toISOString
    (snd (Dashboard_loadConfig toISOString None
            (server jwt bcrypt env azure clock elsewhere) b d))
  = DashBoard
      (mkBoard (Some (Some (JStr (Setting.value promoColor)),
                      Some (JStr (Setting.value promoText))))
               (Some (JStr (Setting.value promoText)))
               (Some (JStr (Setting.value promoColor)))
               (Setting.value flag === "true"))
  /\ fst (Dashboard_loadConfig toISOString None
            (server jwt bcrypt env azure clock elsewhere) b d) = b.
Proof.
  intros Hg Hc Hv Hsec Hcl Ht Hco Hf He.
  pose proof (session_of_stored_token _ _ _ _ _ _ Hg Hc Hv) as Hs.
  rewrite (loadConfig_over_server _ _ _ _ _ _ _ _ _
             (res_json (config_json promoText promoColor flag))).
  - cbn. rewrite He. split; reflexivity.
  - rewrite (app_with_session _ _ _ _ GetConfig _ _ _ eq_refl Hs).
    rewrite config_run, (getAppConfigClient_ok _ _ _ Hsec Hcl), Ht, Hco, Hf.
    reflexivity.
Qed.

Lemma dashboard_shows_what_is_stored_witness :
  Dashboard_view FakeBrowser.toISOString
    (snd (Dashboard_loadConfig FakeBrowser.toISOString None
            (server Fake.jwt Fake.bcrypt Fake.env (Fake.azure_with "TRUE") 9
                    FakeBrowser.nowhere)
            (FakeBrowser.signed_in (Fake.demo_token 5)) initial_dashboard))
  = DashBoard
      (mkBoard (Some (Some (JStr "blue"), Some (JStr "Summer Sale - 50% Off!")))
               (Some (JStr "Summer Sale - 50% Off!"))
               (Some (JStr "blue"))
               false)
  /\ fst (Dashboard_loadConfig FakeBrowser.toISOString None
            (server Fake.jwt Fake.bcrypt Fake.env (Fake.azure_with "TRUE") 9
                    FakeBrowser.nowhere)
            (FakeBrowser.signed_in (Fake.demo_token 5)) initial_dashboard)
     = FakeBrowser.signed_in (Fake.demo_token 5).
Proof.
  apply (dashboard_shows_what_is_stored FakeBrowser.toISOString
           Fake.jwt Fake.bcrypt Fake.env (Fake.azure_with "TRUE") 9 FakeBrowser.nowhere
           (FakeBrowser.signed_in (Fake.demo_token 5)) initial_dashboard
           (Fake.demo_token 5)
           (mkClaims 1 "demo@ltimindtree.com" "Demo User" 5 86405)
           (mkSecret Fake.CONNECTION) (mkClient Fake.CONNECTION)
           (Setting.mk "PromoBanner/Text" "Summer Sale - 50% Off!" 1700000000000)
           (Setting.mk "PromoBanner/Color" "blue" 1700000000001)
           (Setting.mk "Feature/NewCheckout" "TRUE" 1700000000002));
    vm_compute; reflexivity.
Defined.

Lemma js_or_truthy toISOString a fallback :
  truthy fallback = true ->
  js_truthy toISOString (Some (js_or toISOString a fallback)) = true.
Proof.
  intro Hf. unfold js_or. destruct a as [v|]; [|exact Hf].
  destruct (js_truthy toISOString (Some v)) eqn:E; [exact E|exact Hf].
Qed.

(** X15.  The dashboard never takes an error back.  [loadConfig] always ends
    the loading state; a rejected request replaces the whole dashboard by the
    error view; and once an error is set every later load, a successful one
    included, still ends on the error view: after a success it is the old
    error that is shown. *)
Theorem dashboard_error_is_sticky toISOString api transport b d :
  dash_loading (snd (Dashboard_loadConfig toISOString api transport b d)) = false
  /\ (forall response,
         fst (apiService_getConfig api transport b) = Rejected response ->
         Dashboard_view toISOString
           (snd (Dashboard_loadConfig toISOString api transport b d))
         = DashError (error_text toISOString response "Failed to load configuration"))
  /\ (js_truthy toISOString (Some (dash_error d)) = true ->
      (exists e,
          Dashboard_view toISOString
            (snd (Dashboard_loadConfig toISOString api transport b d)) = DashError e
          /\ js_truthy toISOString (Some e) = true)
      /\ (forall response,
             fst (apiService_getConfig api transport b) = Resolved response ->
             js_truthy toISOString (member "success" response) = true ->
             Dashboard_view toISOString
               (snd (Dashboard_loadConfig toISOString api transport b d))
             = DashError (dash_error d))).
Proof.
  assert (Hfail : forall response,
             js_truthy toISOString
               (Some (error_text toISOString response "Failed to load configuration"))
             = true).
  { intros [[code data]|]; [|reflexivity]. now apply js_or_truthy. }
  unfold Dashboard_loadConfig.
  destruct (apiService_getConfig api transport b) as [[response|response] b1].
  - destruct (js_truthy toISOString (member "success" response)) eqn:Hok.
    + split; [reflexivity|]. split; [intros r Hr; discriminate Hr|].
      intro He. split.
      * exists (dash_error d). unfold Dashboard_view.
        cbn [snd dash_loading dash_error]. now rewrite He.
      * intros r _ _. unfold Dashboard_view.
        cbn [snd dash_loading dash_error]. now rewrite He.
    + split; [reflexivity|]. split; [intros r Hr; discriminate Hr|].
      intro He. split.
      * eexists. split; reflexivity.
      * intros r Hr Hs. cbn in Hr. inversion Hr; subst. congruence.
  - split; [reflexivity|]. split.
    + intros r Hr. cbn in Hr. inversion Hr; subst r.
      unfold Dashboard_view. cbn [snd dash_loading dash_error].
      now rewrite Hfail.
    + intro He. split.
      * eexists. unfold Dashboard_view. cbn [snd dash_loading dash_error].
        rewrite Hfail. split; [reflexivity|apply Hfail].
      * intros r Hr. discriminate Hr.
Qed.

Lemma dashboard_error_is_sticky_witness :
  Dashboard_view FakeBrowser.toISOString
    (snd (Dashboard_loadConfig FakeBrowser.toISOString None
            (server Fake.jwt Fake.bcrypt Fake.env Fake.azure 9 FakeBrowser.nowhere)
            (FakeBrowser.signed_in (Fake.demo_token 5))
            (mkDashboardState None false (JStr "Failed to load configuration"))))
  = DashError (JStr "Failed to load configuration").
Proof.
  destruct (dashboard_error_is_sticky FakeBrowser.toISOString None
              (server Fake.jwt Fake.bcrypt Fake.env Fake.azure 9 FakeBrowser.nowhere)
              (FakeBrowser.signed_in (Fake.demo_token 5))
              (mkDashboardState None false (JStr "Failed to load configuration")))
    as [_ [_ H]].
  destruct (H eq_refl) as [_ H'].
  apply (H' (BJson (config_json
                      (Setting.mk "PromoBanner/Text" "Summer Sale - 50% Off!" 1700000000000)
                      (Setting.mk "PromoBanner/Color" "blue" 1700000000001)
                      (Setting.mk "Feature/NewCheckout" "true" 1700000000002))));
    vm_compute; reflexivity.
Defined.

(** ** Starting up and signing out *)

(** X16.  On start-up with a saved token and user, any failure of the profile
    check signs the user out: whether the server refused the token or did not
    answer at all, the token and the user are gone from the browser, no user
    is set, loading has ended, and a protected page redirects to /login. *)
Theorem failed_profile_check_signs_out
        toISOString JSON_parse api transport b s token saved parsed response :
  Storage.getItem "token" (localStorage b) = Some token ->
  Storage.getItem "user" (localStorage b) = Some saved ->
  truthy token = true ->
  truthy saved = true ->
  JSON_parse saved = inr parsed ->
  fst (apiService_getProfile api transport b) = Rejected response ->
  exists b' s',
    AuthProvider_mount JSON_parse api transport b s = inr (b', s')
    /\ Storage.getItem "token" (localStorage b') = None
    /\ Storage.getItem "user" (localStorage b') = None
    /\ request_interceptor b' = None
    /\ s' = mkAuthState None false
    /\ ProtectedRoute toISOString s' = NavigateTo "/login".
Proof.
  intros Hg Hu Ht Hsv Hp Hr.
  unfold AuthProvider_mount. rewrite Hg, Hu, Ht, Hsv, Hp. cbn [andb].
  destruct (apiService_getProfile api transport b) as [settled b1].
  cbn in Hr. subst settled. cbn.
  do 2 eexists. split; [reflexivity|]. cbn [localStorage].
  assert (Hnone : Storage.getItem "token"
                    (Storage.removeItem "user"
                       (Storage.removeItem "token" (localStorage b1))) = None).
  { rewrite StorageFacts.get_remove_other by discriminate.
    apply StorageFacts.get_remove_same. }
  repeat split.
  - exact Hnone.
  - apply StorageFacts.get_remove_same.
  - unfold request_interceptor. cbn [localStorage]. now rewrite Hnone.
Qed.

Lemma failed_profile_check_signs_out_witness :
  exists b' s',
    AuthProvider_mount FakeBrowser.parse None FakeBrowser.nowhere
      (FakeBrowser.signed_in (Fake.demo_token 5)) initial_auth = inr (b', s')
    /\ Storage.getItem "token" (localStorage b') = None
    /\ Storage.getItem "user" (localStorage b') = None
    /\ request_interceptor b' = None
    /\ s' = mkAuthState None false
    /\ ProtectedRoute FakeBrowser.toISOString s' = NavigateTo "/login".
Proof.
  apply (failed_profile_check_signs_out FakeBrowser.toISOString FakeBrowser.parse
           None FakeBrowser.nowhere (FakeBrowser.signed_in (Fake.demo_token 5))
           initial_auth (Fake.demo_token 5) "Demo User"
           (JObj [("name", JStr "Demo User")]) None);
    vm_compute; reflexivity.
Defined.

(** X17.  Signing out removes the token and the user and nothing else from
    the browser, leaves the page where it is, and from then on the browser
    sends no Authorization header, so that every protected route of the
    server answers it with 401 and no upstream call. *)
Theorem logout_ends_the_session jwt bcrypt env azure route clock b s :
  protected route = true ->
  request_interceptor (fst (AuthProvider_logout b s)) = None
  /\ Storage.getItem "token" (localStorage (fst (AuthProvider_logout b s))) = None
  /\ Storage.getItem "user" (localStorage (fst (AuthProvider_logout b s))) = None
  /\ (forall k, k <> "token" -> k <> "user" ->
        Storage.getItem k (localStorage (fst (AuthProvider_logout b s)))
        = Storage.getItem k (localStorage b))
  /\ location_href (fst (AuthProvider_logout b s)) = location_href b
  /\ auth_user (snd (AuthProvider_logout b s)) = None
  /\ app jwt bcrypt env azure route clock (request_from (fst (AuthProvider_logout b s)))
     = (inr access_token_required, []).
Proof.
  intro Hp. cbn [AuthProvider_logout fst snd localStorage location_href auth_user].
  assert (Hnone : Storage.getItem "token"
                    (Storage.removeItem "user"
                       (Storage.removeItem "token" (localStorage b))) = None).
  { rewrite StorageFacts.get_remove_other by discriminate.
    apply StorageFacts.get_remove_same. }
  assert (Hh : request_interceptor
                 (mkBrowser (Storage.removeItem "user"
                               (Storage.removeItem "token" (localStorage b)))
                            (location_href b)) = None).
  { unfold request_interceptor. cbn [localStorage]. now rewrite Hnone. }
  split; [exact Hh|]. split; [exact Hnone|].
  split; [apply StorageFacts.get_remove_same|].
  split.
  { intros k Hk1 Hk2. now rewrite !StorageFacts.get_remove_other. }
  split; [reflexivity|]. split; [reflexivity|].
  assert (Hb : bearer_token
                 (request_from
                    (mkBrowser (Storage.removeItem "user"
                                  (Storage.removeItem "token" (localStorage b)))
                               (location_href b))) = None).
  { unfold bearer_token, request_from. cbn [authorization]. now rewrite Hh. }
  rewrite app_without_session; [now rewrite Hb|exact Hp|].
  unfold session. now rewrite Hb.
Qed.

Lemma logout_ends_the_session_witness :
  request_interceptor
    (fst (AuthProvider_logout (FakeBrowser.signed_in (Fake.demo_token 5)) initial_auth))
  = None.
Proof.
  apply (logout_ends_the_session Fake.jwt Fake.bcrypt Fake.env Fake.azure GetConfig 9
           (FakeBrowser.signed_in (Fake.demo_token 5)) initial_auth).
  reflexivity.
Defined.

(** ** The configuration page *)

(** X18.  Refreshing one setting touches that one entry only: after
    [loadSpecificSetting key] every other key of the settings object holds
    what it held, the loading flag and the selection are as before, and the
    entry of [key] is either as before or, when the server answered with
    success, the [value] member of that answer, whatever it is. *)
Theorem refresh_updates_one_entry toISOString api transport b d key :
  (forall k, k <> key ->
     Obj.get k (detail_settings
                  (snd (ConfigurationDetail_loadSpecificSetting
                          toISOString api transport b d key)))
     = Obj.get k (detail_settings d))
  /\ detail_loading (snd (ConfigurationDetail_loadSpecificSetting
                            toISOString api transport b d key))
     = detail_loading d
  /\ detail_selected (snd (ConfigurationDetail_loadSpecificSetting
                             toISOString api transport b d key))
     = detail_selected d
  /\ (snd (ConfigurationDetail_loadSpecificSetting toISOString api transport b d key) = d
      \/ exists response,
          fst (apiService_getConfigSetting api transport b key) = Resolved response
          /\ js_truthy toISOString (member "success" response) = true
          /\ Obj.get key (detail_settings
                            (snd (ConfigurationDetail_loadSpecificSetting
                                    toISOString api transport b d key)))
             = Some (member "value" response)).
Proof.
  unfold ConfigurationDetail_loadSpecificSetting.
  destruct (apiService_getConfigSetting api transport b key)
    as [[response|response] b1].
  - destruct (js_truthy toISOString (member "success" response)) eqn:Hok.
    + cbn [snd fst detail_settings detail_loading detail_selected].
      split; [intros k Hk; now apply ObjFacts.get_after_set_other|].
      split; [reflexivity|]. split; [reflexivity|].
      right. exists response. repeat split; [exact Hok|].
      apply ObjFacts.get_after_set.
    + repeat split. now left.
  - repeat split. now left.
Qed.

(** X19.  Loading all settings ends the loading state in every case, keeps
    the selection, and leaves the settings object either untouched (the
    request failed, the answer was no success, or a member was missing and
    the resulting error was swallowed) or replaced by exactly the three
    entries PromoBanner/Text, PromoBanner/Color, Feature/NewCheckout, in
    this order. *)
Theorem loadAllSettings_is_all_or_nothing toISOString api transport b d :
  detail_loading (snd (ConfigurationDetail_loadAllSettings toISOString api transport b d))
  = false
  /\ detail_selected
       (snd (ConfigurationDetail_loadAllSettings toISOString api transport b d))
     = detail_selected d
  /\ (detail_settings
        (snd (ConfigurationDetail_loadAllSettings toISOString api transport b d))
      = detail_settings d
      \/ map fst (detail_settings
                    (snd (ConfigurationDetail_loadAllSettings
                            toISOString api transport b d)))
         = CONFIG_KEYS).
Proof.
  unfold ConfigurationDetail_loadAllSettings.
  destruct (apiService_getConfig api transport b) as [[response|response] b1];
    [|repeat split; now left].
  destruct (js_truthy toISOString (member "success" response));
    [|repeat split; now left].
  destruct (all_settings toISOString response) as [e|settings] eqn:Hall;
    [repeat split; now left|].
  repeat split. right. cbn [snd detail_settings].
  unfold all_settings in Hall.
  repeat match type of Hall with
         | match ?x with inl _ => _ | inr _ => _ end = _ =>
             destruct x; [discriminate Hall|]
         end.
  inversion Hall. reflexivity.
Qed.

(** X20.  From the stores to the configuration page: for a signed-in browser
    the settings object after [loadAllSettings] holds the stored text and
    colour as they are, but for Feature/NewCheckout the word "true" or
    "false" and not the stored value: any stored value other than exactly
    "true" is listed as "false". *)
Theorem all_settings_lists_the_flag_as_a_boolean
        toISOString jwt bcrypt env azure clock elsewhere b d token c
        s client promoText promoColor flag :
  Storage.getItem "token" (localStorage b) = Some token ->
  compact token = true ->
  verify jwt token (JWT_SECRET env) clock = inr c ->
  getSecret azure SECRET_NAME = inr s ->
  AppConfigurationClient azure (secret_value s) = inr client ->
  getConfigurationSetting azure client "PromoBanner/Text" = inr promoText ->
  getConfigurationSetting azure client "PromoBanner/Color" = inr promoColor ->
  getConfigurationSetting azure client "Feature/NewCheckout" = inr flag ->
  ConfigurationDetail_loadAllSettings toISOString None
    (server jwt bcrypt env azure clock elsewhere) b d
  = (b, mkDetailState
          [("PromoBanner/Text", Some (JStr (Setting.value promoText)));
           ("PromoBanner/Color", Some (JStr (Setting.value promoColor)));
           ("Feature/NewCheckout",
            Some (JStr (if Setting.value flag === "true" then "true" else "false")))]
          false (detail_selected d)).
Proof.
  intros Hg Hc Hv Hsec Hcl Ht Hco Hf.
  pose proof (session_of_stored_token _ _ _ _ _ _ Hg Hc Hv) as Hs.
  unfold ConfigurationDetail_loadAllSettings, apiService_getConfig.
  change (API_BASE None +++ "/config") with "/api/config".
  rewrite (axios_reply _ b GET "/api/config" None 200
             (BJson (config_json promoText promoColor flag))).
  - cbn. destruct (Setting.value flag === "true"); reflexivity.
  - rewrite server_config. unfold reply_of.
    change (mkRequest (request_interceptor b) None None "" None) with (request_from b).
    rewrite (app_with_session _ _ _ _ GetConfig _ _ _ eq_refl Hs).
    rewrite config_run, (getAppConfigClient_ok _ _ _ Hsec Hcl), Ht, Hco, Hf.
    reflexivity.
Qed.

Lemma all_settings_lists_the_flag_as_a_boolean_witness :
  ConfigurationDetail_loadAllSettings FakeBrowser.toISOString None
    (server Fake.jwt Fake.bcrypt Fake.env (Fake.azure_with "True") 9 FakeBrowser.nowhere)
    (FakeBrowser.signed_in (Fake.demo_token 5)) initial_detail
  = (FakeBrowser.signed_in (Fake.demo_token 5),
     mkDetailState
       [("PromoBanner/Text", Some (JStr "Summer Sale - 50% Off!"));
        ("PromoBanner/Color", Some (JStr "blue"));
        ("Feature/NewCheckout", Some (JStr "false"))]
       false (detail_selected initial_detail)).
Proof.
  apply (all_settings_lists_the_flag_as_a_boolean FakeBrowser.toISOString
           Fake.jwt Fake.bcrypt Fake.env (Fake.azure_with "True") 9 FakeBrowser.nowhere
           (FakeBrowser.signed_in (Fake.demo_token 5)) initial_detail
           (Fake.demo_token 5)
           (mkClaims 1 "demo@ltimindtree.com" "Demo User" 5 86405)
           (mkSecret Fake.CONNECTION) (mkClient Fake.CONNECTION)
           (Setting.mk "PromoBanner/Text" "Summer Sale - 50% Off!" 1700000000000)
           (Setting.mk "PromoBanner/Color" "blue" 1700000000001)
           (Setting.mk "Feature/NewCheckout" "True" 1700000000002));
    vm_compute; reflexivity.
Defined.
